(** * Spike-train buffers of bmtk: a shallow embedding

    Source: [bmtk/utils/reports/spike_trains/spike_train_buffer.py].

    Conventions of the embedding.
    - The language is Python 3 (3.7 or later): a [StopIteration] that leaves a
      generator body is turned into [RuntimeError] (PEP 479), ordering
      comparisons with [None] or between objects without [__lt__] raise
      [TypeError].
    - A timestamp is a finite float; finite floats are rationals and are
      compared as such, so timestamps are values of [Q], compared with
      [Qle_bool] and [Qeq_bool] (never with Leibniz equality).
    - A cache file is the list of its parsed lines, one [row] per line.
    - A generator is described by its complete run: the items it yields, in
      order, and the way the run ends ([None]: exhausted normally,
      [Some e]: exception [e] escapes after the last yielded item). *)

From stdpp Require Import gmap strings list fin_maps pretty sorting.
From Stdlib Require Import Ascii QArith.

Close Scope Q_scope.
Open Scope Z_scope.
Open Scope nat_scope.
Open Scope string_scope.
Open Scope list_scope.
Open Scope stdpp_scope.

(** ** Python preliminaries *)

(** Exceptions, by class.  A [ValueError] keeps its message: two different
    conditions raise it below. *)
Inductive exn :=
| StopIteration | RuntimeError | TypeError | ValueError (msg : string)
| AttributeError | IndexError | FileNotFoundError | OSError
| NotImplementedError.

(** The class name under which an exception is reported. *)
Definition exn_name (e : exn) : string :=
  match e with
  | StopIteration => "StopIteration"
  | RuntimeError => "RuntimeError"
  | TypeError => "TypeError"
  | ValueError _ => "ValueError"
  | AttributeError => "AttributeError"
  | IndexError => "IndexError"
  | FileNotFoundError => "FileNotFoundError"
  | OSError => "OSError"
  | NotImplementedError => "NotImplementedError"
  end.

Inductive result (A : Type) :=
| Ok (a : A)
| Raise (e : exn).
Arguments Ok {A} a.
Arguments Raise {A} e.

Global Instance result_ret : MRet result := fun A a => Ok a.

Global Instance result_bind : MBind result := fun A B k r =>
  match r with
  | Ok a => k a
  | Raise e => Raise e
  end.

(** The run of a generator. *)
Record run (A : Type) := Run { yielded : list A; finish : option exn }.
Arguments Run {A} yielded finish.
Arguments yielded {A} r.
Arguments finish {A} r.

(** Falling off the end of the generator body. *)
Definition g_return {A} : run A := Run [] None.

(** An exception that leaves the generator body: PEP 479 replaces
    [StopIteration] by [RuntimeError]. *)
Definition g_raise {A} (e : exn) : run A :=
  Run [] (Some match e with StopIteration => RuntimeError | _ => e end).

(** [yield x], then the rest of the body. *)
Definition g_yield {A} (x : A) (rest : run A) : run A :=
  Run (x :: yielded rest) (finish rest).

(** Two pieces of generator body in sequence. *)
Definition g_seq {A} (r1 r2 : run A) : run A :=
  match finish r1 with
  | None => Run (yielded r1 ++ yielded r2) (finish r2)
  | Some _ => r1
  end.

(** A fallible statement inside a generator body. *)
Definition g_try {A B} (r : result A) (k : A -> run B) : run B :=
  match r with
  | Ok a => k a
  | Raise e => g_raise e
  end.

(** [x or d] on an optional string: [None] and the empty string are falsy. *)
Definition str_or (x : option string) (d : string) : string :=
  match x with
  | Some s => if decide (s = "") then d else s
  | None => d
  end.

(** ** Event records and sort orders *)

Record row := Row { ts : Q; pop : string; node : Z }.

(** The triple [(timestamp, population, node_id)] a reader yields. *)
Abbreviation spike := (Q * string * Z)%type.

Definition row_spike (r : row) : spike := (ts r, pop r, node r).

(** Modelled from the spec: the enumeration [SortOrder], declared in the
    module [.core], which is not among the sources: "an enumeration
    [{None, ByTime, ById}] selecting retrieval ordering". *)
Inductive SortOrder := none | by_time | by_id.

Global Instance SortOrder_eq_dec : EqDecision SortOrder.
Proof. solve_decision. Defined.

(** ** numpy and pandas, as far as the buffers use them *)

(** [np.isscalar] distinguishes a single label from a collection. *)
Inductive pops_arg :=
| PopScalar (s : string)
| PopColl (l : list string).

Fixpoint insert_by {A} (le : A -> A -> bool) (x : A) (l : list A) : list A :=
  match l with
  | [] => [x]
  | y :: l' => if le x y then x :: l else y :: insert_by le x l'
  end.

Definition sort_by {A} (le : A -> A -> bool) (l : list A) : list A :=
  foldr (insert_by le) [] l.

(** [np.argsort]: the indices that sort the values.  numpy leaves the order
    among equal values open; here it is the input order. *)
Definition argsort {A} (le : A -> A -> bool) (l : list A) : list nat :=
  fst <$> sort_by (fun a b => le (snd a) (snd b)) (zip (seq 0 (length l)) l).

(** [np.min] and [np.max] of a sequence of floats: a [ValueError] on the empty
    sequence. *)
Definition empty_reduction (name : string) : exn :=
  ValueError ("zero-size array to reduction operation " +:+ name
              +:+ " which has no identity").

Definition Qmin_b (a b : Q) : Q := if Qle_bool a b then a else b.
Definition Qmax_b (a b : Q) : Q := if Qle_bool a b then b else a.

Definition np_min (l : list Q) : result Q :=
  match l with
  | [] => Raise (empty_reduction "minimum")
  | x :: l' => Ok (foldl Qmin_b x l')
  end.

Definition np_max (l : list Q) : result Q :=
  match l with
  | [] => Raise (empty_reduction "maximum")
  | x :: l' => Ok (foldl Qmax_b x l')
  end.

(** [p == n] for a string and an integer: they are never equal. *)
Definition str_eq_int (p : string) (n : Z) : bool := false.

(** The argument [node_ids] of [add_spikes]: a single id ([np.isscalar]) or
    a sequence of ids. *)
Inductive ids_arg :=
| IdScalar (n : Z)
| IdList (l : list Z).

(** Elementwise operations of numpy on one-dimensional arrays.  Two arrays
    combine when they have the same length or one of them has length 1. *)
Definition broadcast_error : exn :=
  ValueError "operands could not be broadcast together".

(** [a & b]. *)
Definition np_and (a b : list bool) : result (list bool) :=
  if decide (length a = length b) then Ok (zip_with andb a b)
  else match a, b with
       | [x], _ => Ok (andb x <$> b)
       | _, [y] => Ok ((fun x => andb x y) <$> a)
       | _, _ => Raise broadcast_error
       end.

(** [a &= b]: the result has to fit into [a]. *)
Definition np_iand (a b : list bool) : result (list bool) :=
  if decide (length a = length b) then Ok (zip_with andb a b)
  else match b with
       | [y] => Ok ((fun x => andb x y) <$> a)
       | _ => Raise broadcast_error
       end.

(** [ts[mask]] with a boolean mask: an [IndexError] when the lengths differ. *)
Definition np_take {A} (ts : list A) (mask : list bool) : result (list A) :=
  if decide (length ts = length mask)
  then Ok (snd <$> base.filter (fun bt : bool * A => fst bt = true) (zip mask ts))
  else Raise IndexError.

(** The words [pd.read_csv] reads as a missing value (the default
    [na_values] of pandas 2). *)
Definition pd_na_values : list string :=
  [ ""; "#N/A"; "#N/A N/A"; "#NA"; "-1.#IND"; "-1.#QNAN"; "-NaN"; "-nan";
    "1.#IND"; "1.#QNAN"; "<NA>"; "N/A"; "NA"; "NULL"; "NaN"; "None"; "n/a";
    "nan"; "null" ].

Definition pd_missing (s : string) : bool := existsb (String.eqb s) pd_na_values.

(** What [to_csv] writes back for a population read by [read_csv]: a missing
    value is written as the empty field. *)
Definition pd_label (s : string) : string := if pd_missing s then "" else s.

(** The lines of a file after [read_csv] and [to_csv].  When every
    population of the file reads as a number or as a truth value, pandas
    types the column and writes the values in its own spelling; that is not
    modelled, and the statements about reads in order are for files whose
    populations are text, see [pd_text]. *)
Definition pd_frame (rows : list row) : list row :=
  (fun r => Row (ts r) (pd_label (pop r)) (node r)) <$> rows.

(** ** The filter builder *)

Definition _spikes_filter1 (p : string) (t : Q) (time_window : Q * Q)
    (populations : list string) : bool :=
  bool_decide (p ∈ populations)
  && (Qle_bool (fst time_window) t && Qle_bool t (snd time_window)).

Definition _spikes_filter2 (p : string) (t : Q) (populations : list string) : bool :=
  bool_decide (p ∈ populations).

Definition _spikes_filter3 (p : string) (t : Q) (time_window : Q * Q) : bool :=
  Qle_bool (fst time_window) t && Qle_bool t (snd time_window).

Definition _create_filter (populations : option pops_arg)
    (time_window : option (Q * Q)) : string -> Q -> bool :=
  match populations, time_window with
  | None, None => fun p t => true
  | None, Some tw => fun p t => _spikes_filter3 p t tw
  | Some pa, _ =>
      let populations :=
        match pa with PopScalar s => [s] | PopColl l => l end in
      match time_window with
      | None => fun p t => _spikes_filter2 p t populations
      | Some tw => fun p t => _spikes_filter1 p t tw populations
      end
  end.

(** ** The memory buffer *)

Module STMemoryBuffer.

Record t := Build {
  _default_population : string;
  _node_ids : list Z;
  _timestamps : list Q;
  _populations : list string;
  _pop_counts : gmap (option string) nat;
  _units : string
}.

(** [__init__].  The constant [pop_na] is declared in [.core], which is not
    among the sources; the functions that read it take it as an argument. *)
Definition init (pop_na : string) (default_population : option string)
    (units : option string) : t :=
  let dp := str_or default_population pop_na in
  {| _default_population := dp;
     _node_ids := [];
     _timestamps := [];
     _populations := [];
     _pop_counts := {[ Some dp := 0 ]};
     _units := default "ms" units |}.

Definition add_spike (self : t) (node_id : Z) (timestamp : Q)
    (population : option string) : t :=
  let population := str_or population (_default_population self) in
  {| _default_population := _default_population self;
     _node_ids := _node_ids self ++ [node_id];
     _timestamps := _timestamps self ++ [timestamp];
     _populations := _populations self ++ [population];
     _pop_counts :=
       <[ Some population := default 0 (_pop_counts self !! Some population) + 1 ]>
         (_pop_counts self);
     _units := _units self |}.

Definition n_spikes (self : t) (population : option string) : nat :=
  default 0 (_pop_counts self !! population).

Definition time_range (self : t) : result (Q * Q) :=
  lo ← np_min (_timestamps self);
  hi ← np_max (_timestamps self);
  Ok (lo, hi).

Definition to_dataframe (self : t) (node_ids : option (list Z))
    (populations : option pops_arg) (time_window : option (Q * Q))
    (sort_order : SortOrder) : result (list spike) :=
  Raise NotImplementedError.

(** [__len__] is [len(self.to_dataframe())]. *)
Definition len (self : t) : result nat :=
  df ← to_dataframe self None None None none;
  Ok (length df).

(** The body of the [for i in sort_indx] loop. *)
Fixpoint spikes_loop (self : t) (filter : string -> Q -> bool)
    (sort_indx : list nat) : run spike :=
  match sort_indx with
  | [] => g_return
  | i :: rest =>
      match _timestamps self !! i, _populations self !! i with
      | Some t, Some p =>
          if filter p t then
            match _node_ids self !! i with
            | Some n => g_yield (t, p, n) (spikes_loop self filter rest)
            | None => g_raise IndexError
            end
          else spikes_loop self filter rest
      | _, _ => g_raise IndexError
      end
  end.

Definition spikes (self : t) (node_ids : option (list Z))
    (populations : option pops_arg) (time_window : option (Q * Q))
    (sort_order : SortOrder) : run spike :=
  let sort_indx :=
    if decide (sort_order = by_time) then argsort Qle_bool (_timestamps self)
    else if decide (sort_order = by_time) then argsort Z.leb (_node_ids self)
    else seq 0 (length (_timestamps self)) in
  let filter := _create_filter populations time_window in
  g_seq (spikes_loop self filter sort_indx) (g_raise StopIteration).

(** [add_spikes]: a single node id is repeated for every timestamp; [zip]
    stops at the end of the shorter sequence. *)
Definition add_spikes (self : t) (node_ids : ids_arg) (timestamps : list Q)
    (population : option string) : t :=
  let node_ids :=
    match node_ids with
    | IdScalar n => replicate (length timestamps) n
    | IdList l => l
    end in
  foldl (fun b nt => add_spike b (fst nt) (snd nt) population) self
    (zip node_ids timestamps).

(** [populations]: the keys of the counts.  A dict lists them in the order
    of their first insertion; that order is not kept here. *)
Definition populations (self : t) : list (option string) :=
  elements (dom (_pop_counts self)).

(** [nodes]: [list(set(self._node_ids))], in no particular order; the
    argument is not looked at. *)
Definition nodes (self : t) (populations : option pops_arg) : list Z :=
  elements (list_to_set (_node_ids self) : gset Z).

Definition get_times (self : t) (node_id : Z) (population : option string)
    (time_window : option (Q * Q)) : result (list Q) :=
  let population := str_or population (_default_population self) in
  mask ← np_and ((fun n => bool_decide (n = node_id)) <$> _node_ids self)
                ((fun p => bool_decide (p = population)) <$> _populations self);
  let ts := _timestamps self in
  mask ← match time_window with
         | Some tw =>
             w ← np_and (Qle_bool (fst tw) <$> ts)
                        ((fun t => Qle_bool t (snd tw)) <$> ts);
             np_iand mask w
         | None => Ok mask
         end;
  np_take ts mask.

End STMemoryBuffer.

(** ** Files *)

(** The file system: the directories that exist and the files, each with its
    lines. *)
Record filesystem := FS {
  fs_dirs : gset string;
  fs_files : gmap string (list row)
}.

(** [os.path.exists]. *)
Definition path_exists (fs : filesystem) (path : string) : bool :=
  bool_decide (path ∈ fs_dirs fs) || bool_decide (is_Some (fs_files fs !! path)).

Fixpoint ends_with_slash (s : string) : bool :=
  match s with
  | EmptyString => false
  | String c EmptyString => bool_decide (c = "/"%char)
  | String _ s' => ends_with_slash s'
  end.

(** [os.path.join] of a directory and a relative file name. *)
Definition path_join (dir name : string) : string :=
  if decide (dir = "") then name
  else if ends_with_slash dir then dir +:+ name
  else dir +:+ "/" +:+ name.

(** [os.remove]: an [OSError] on a directory. *)
Definition fs_remove (fs : filesystem) (path : string) : result filesystem :=
  if bool_decide (path ∈ fs_dirs fs) then Raise OSError
  else if bool_decide (is_Some (fs_files fs !! path))
  then Ok (FS (fs_dirs fs) (delete path (fs_files fs)))
  else Raise FileNotFoundError.

(** [open(path, 'r')] and reading all the lines. *)
Definition fs_read (fs : filesystem) (path : string) : result (list row) :=
  match fs_files fs !! path with
  | Some rows => Ok rows
  | None => Raise FileNotFoundError
  end.

(** A file object opened for writing: lines written are held back until the
    next [flush] or [close]. *)
Record handle := Handle { h_closed : bool; h_pending : list row }.

(** [open(path, 'w')]: the file is created, or truncated; an [OSError] on a
    directory. *)
Definition fs_open_w (fs : filesystem) (path : string) :
    result (handle * filesystem) :=
  if bool_decide (path ∈ fs_dirs fs) then Raise OSError
  else Ok (Handle false [], FS (fs_dirs fs) (<[ path := [] ]> (fs_files fs))).

(** Lines reach the file the handle was opened on, if it is still there. *)
Definition fs_append (fs : filesystem) (path : string) (rows : list row) : filesystem :=
  FS (fs_dirs fs) (alter (fun old => old ++ rows) path (fs_files fs)).

(** What a closed file object answers to [write] and [flush]. *)
Definition closed_file : exn := ValueError "I/O operation on closed file.".

Definition h_write (h : handle) (r : row) : result handle :=
  if h_closed h then Raise closed_file
  else Ok (Handle false (h_pending h ++ [r])).

Definition h_flush (h : handle) (path : string) (fs : filesystem) :
    result (handle * filesystem) :=
  if h_closed h then Raise closed_file
  else Ok (Handle false [], fs_append fs path (h_pending h)).

Definition h_close (h : handle) (path : string) (fs : filesystem) :
    handle * filesystem :=
  if h_closed h then (h, fs)
  else (Handle true [], fs_append fs path (h_pending h)).

(** ** The single-file buffer *)

Module STCSVBuffer.

Record t := Build {
  _default_population : string;
  _cache_dir : string;
  _buffer_filename : string;
  _buffer_handle : handle;
  _pop_counts : gmap (option string) nat;
  _nspikes : nat;
  _units : string
}.

Definition set_handle (self : t) (h : handle) : t :=
  {| _default_population := _default_population self;
     _cache_dir := _cache_dir self;
     _buffer_filename := _buffer_filename self;
     _buffer_handle := h;
     _pop_counts := _pop_counts self;
     _nspikes := _nspikes self;
     _units := _units self |}.

Definition set_counts (self : t) (counts : gmap (option string) nat) : t :=
  {| _default_population := _default_population self;
     _cache_dir := _cache_dir self;
     _buffer_filename := _buffer_filename self;
     _buffer_handle := _buffer_handle self;
     _pop_counts := counts;
     _nspikes := _nspikes self;
     _units := _units self |}.

(** [os.mkdirs] does not exist: the attribute lookup fails when the cache
    directory is missing. *)
Definition _cache_fname (fs : filesystem) (self_cache_dir cache_dir : string) :
    result string :=
  if path_exists fs self_cache_dir
  then Ok (path_join cache_dir ".bmtk.spikes.cache.csv")
  else Raise AttributeError.

(** [__init__], with the [_cache_fname] of the class that is constructed. *)
Definition init_with (cache_fname : filesystem -> string -> string -> result string)
    (pop_na : string) (cache_dir default_population : option string)
    (units : option string) (fs : filesystem) : result (t * filesystem) :=
  let dp := str_or default_population pop_na in
  let cd := str_or cache_dir "." in
  fn ← cache_fname fs cd cd;
  '(h, fs') ← fs_open_w fs fn;
  Ok ({| _default_population := dp;
         _cache_dir := cd;
         _buffer_filename := fn;
         _buffer_handle := h;
         _pop_counts := {[ Some dp := 0 ]};
         _nspikes := 0;
         _units := default "ms" units |}, fs').

Definition init := init_with _cache_fname.

Definition add_spike (pop_na : string) (self : t) (node_id : Z) (timestamp : Q)
    (population : option string) : result t :=
  let population := str_or population pop_na in
  h ← h_write (_buffer_handle self) (Row timestamp population node_id);
  Ok {| _default_population := _default_population self;
        _cache_dir := _cache_dir self;
        _buffer_filename := _buffer_filename self;
        _buffer_handle := h;
        _pop_counts :=
          <[ Some population := default 0 (_pop_counts self !! Some population) + 1 ]>
            (_pop_counts self);
        _nspikes := _nspikes self + 1;
        _units := _units self |}.

Definition n_spikes (self : t) (population : option string) : nat :=
  default 0 (_pop_counts self !! population).

(** [self._timestamps] is never assigned in this class. *)
Definition time_range (self : t) : result (Q * Q) :=
  Raise AttributeError.

Definition to_dataframe (self : t) (node_ids : option (list Z))
    (populations : option pops_arg) (time_window : option (Q * Q))
    (sort_order : SortOrder) : result (list spike) :=
  Raise NotImplementedError.

Definition flush (self : t) (fs : filesystem) : result (t * filesystem) :=
  '(h, fs') ← h_flush (_buffer_handle self) (_buffer_filename self) fs;
  Ok (set_handle self h, fs').

(** [close] returns the exception that escapes, if any, and the state it
    leaves. *)
Definition close (self : t) (fs : filesystem) : option exn * t * filesystem :=
  let '(h, fs1) := h_close (_buffer_handle self) (_buffer_filename self) fs in
  if path_exists fs1 (_buffer_filename self) then
    match fs_remove fs1 (_buffer_filename self) with
    | Ok fs2 => (None, set_handle self h, fs2)
    | Raise e => (Some e, set_handle self h, fs1)
    end
  else (None, set_handle self h, fs1).

(** [pd.read_csv], [sort_values(by=sort_col)], [to_csv]: the file is rewritten
    with its lines, as pandas reads and writes them, sorted on the column.
    pandas leaves the order among equal keys open; here it is the order in
    the file. *)
Definition _sort_buffer_file (fs : filesystem) (file_name : string)
    (sort_order : SortOrder) : result filesystem :=
  match sort_order with
  | by_time =>
      rows ← fs_read fs file_name;
      Ok (FS (fs_dirs fs)
            (<[ file_name :=
                  sort_by (fun a b => Qle_bool (ts a) (ts b)) (pd_frame rows) ]>
               (fs_files fs)))
  | by_id =>
      rows ← fs_read fs file_name;
      Ok (FS (fs_dirs fs)
            (<[ file_name :=
                  sort_by (fun a b => Z.leb (node a) (node b)) (pd_frame rows) ]>
               (fs_files fs)))
  | none => Ok fs
  end.

(** The body of [for row in csv_reader]. *)
Fixpoint scan_rows (filter : string -> Q -> bool) (rows : list row) : run spike :=
  match rows with
  | [] => g_return
  | row :: rest =>
      if filter (pop row) (ts row)
      then g_yield (ts row, pop row, node row) (scan_rows filter rest)
      else scan_rows filter rest
  end.

(** [spikes] is a generator: nothing runs before the first item is asked for,
    and the state is the one left behind when the run ends. *)
Definition spikes (self : t) (fs : filesystem) (node_ids : option (list Z))
    (populations : option pops_arg) (time_window : option (Q * Q))
    (sort_order : SortOrder) : run spike * t * filesystem :=
  match flush self fs with
  | Raise e => (g_raise e, self, fs)
  | Ok (self1, fs1) =>
      match _sort_buffer_file fs1 (_buffer_filename self1) sort_order with
      | Raise e => (g_raise e, self1, fs1)
      | Ok fs2 =>
          let filter := _create_filter populations time_window in
          match fs_read fs2 (_buffer_filename self1) with
          | Raise e => (g_raise e, self1, fs2)
          | Ok rows =>
              (g_seq (scan_rows filter rows) (g_raise StopIteration), self1, fs2)
          end
      end
  end.

Definition add_spikes (pop_na : string) (self : t) (node_ids : ids_arg)
    (timestamps : list Q) (population : option string) : result t :=
  match node_ids with
  | IdScalar n =>
      foldl (fun acc ts => b ← acc; add_spike pop_na b n ts population)
        (Ok self) timestamps
  | IdList l =>
      foldl (fun acc nt => b ← acc; add_spike pop_na b (fst nt) (snd nt) population)
        (Ok self) (zip l timestamps)
  end.

Definition populations (self : t) : list (option string) :=
  elements (dom (_pop_counts self)).

(** [self._node_ids] is never assigned in this class. *)
Definition nodes (self : t) (populations : option pops_arg) : result (list Z) :=
  Raise AttributeError.

(** What [get_times] makes of a run of [spikes]: the list comprehension
    keeps [t[0]] of the triples with [t[1] == node_id], and an exception
    that ends the run leaves the comprehension. *)
Definition times_of_run (node_id : Z) (r : run spike) : result (list Q) :=
  match finish r with
  | Some e => Raise e
  | None =>
      Ok ((fun s : spike => s.1.1) <$>
          base.filter (fun s : spike => str_eq_int s.1.2 node_id = true)
            (yielded r))
  end.

(** [get_times] passes the keyword [population], which [spikes] does not
    know and drops into [**kwargs]: the run is not filtered by population. *)
Definition get_times (self : t) (fs : filesystem) (node_id : Z)
    (population : option string) (time_window : option (Q * Q)) :
    result (list Q) * t * filesystem :=
  let '(r, self', fs') := spikes self fs None None time_window none in
  (times_of_run node_id r, self', fs').

End STCSVBuffer.

(** ** Python values and their comparisons *)

(** The values a parsed line holds: [float(rn[0])], [rn[1]], [int(rn[2])]. *)
Inductive pyval :=
| PyFloat (q : Q)
| PyStr (s : string)
| PyInt (z : Z).

Definition row_list (r : row) : list pyval :=
  [PyFloat (ts r); PyStr (pop r); PyInt (node r)].

(** [==]: numbers are compared by value, a number never equals a string. *)
Definition py_eq (a b : pyval) : bool :=
  match a, b with
  | PyFloat x, PyFloat y => Qeq_bool x y
  | PyFloat x, PyInt y => Qeq_bool x (inject_Z y)
  | PyInt x, PyFloat y => Qeq_bool (inject_Z x) y
  | PyInt x, PyInt y => Z.eqb x y
  | PyStr x, PyStr y => bool_decide (x = y)
  | _, _ => false
  end.

(** Strict order of two floats. *)
Definition Qlt_bool (x y : Q) : bool := negb (Qle_bool y x).

(** Strict order of two strings, character by character. *)
Fixpoint str_ltb (x y : string) : bool :=
  match x, y with
  | EmptyString, EmptyString => false
  | EmptyString, String _ _ => true
  | String _ _, EmptyString => false
  | String a x', String b y' =>
      if decide (a = b) then str_ltb x' y'
      else (nat_of_ascii a <? nat_of_ascii b)%nat
  end.

(** [<]: a [TypeError] between a number and a string. *)
Definition py_lt (a b : pyval) : result bool :=
  match a, b with
  | PyFloat x, PyFloat y => Ok (Qlt_bool x y)
  | PyFloat x, PyInt y => Ok (Qlt_bool x (inject_Z y))
  | PyInt x, PyFloat y => Ok (Qlt_bool (inject_Z x) y)
  | PyInt x, PyInt y => Ok (Z.ltb x y)
  | PyStr x, PyStr y => Ok (str_ltb x y)
  | _, _ => Raise TypeError
  end.

(** [<] of two lists: decided at the first position where they differ. *)
Fixpoint list_lt (a b : list pyval) : result bool :=
  match a, b with
  | [], [] => Ok false
  | [], _ :: _ => Ok true
  | _ :: _, [] => Ok false
  | x :: a', y :: b' => if py_eq x y then list_lt a' b' else py_lt x y
  end.

Definition list_eq (a b : list pyval) : bool :=
  bool_decide (length a = length b) && forallb (fun xy => py_eq xy.1 xy.2) (zip a b).

(** A [csv.reader] over an open file: the object (told apart by [rd_id]) and
    the lines it has not handed out yet. *)
Record reader := Reader { rd_id : nat; rd_rest : list row }.

(** What [next_row] returns: the tuple [(row[sort_col], row, csv_reader)]. *)
Record entry := Entry { e_key : pyval; e_row : row; e_reader : reader }.

(** [<] of two such tuples.  Reader objects are equal only when they are the
    same object, and have no order. *)
Definition tuple_lt (a b : entry) : result bool :=
  if negb (py_eq (e_key a) (e_key b)) then py_lt (e_key a) (e_key b)
  else if negb (list_eq (row_list (e_row a)) (row_list (e_row b)))
  then list_lt (row_list (e_row a)) (row_list (e_row b))
  else if decide (rd_id (e_reader a) = rd_id (e_reader b)) then Ok false
  else Raise TypeError.

(** [<] of two heap items, each a tuple or [None]. *)
Definition item_lt (a b : option entry) : result bool :=
  match a, b with
  | Some x, Some y => tuple_lt x y
  | _, _ => Raise TypeError
  end.

(** Leibniz equality of the values above can be decided. *)
Global Instance Q_eq_dec : EqDecision Q.
Proof. solve_decision. Defined.

Global Instance row_eq_dec : EqDecision row.
Proof. solve_decision. Defined.

Global Instance pyval_eq_dec : EqDecision pyval.
Proof. solve_decision. Defined.

Global Instance reader_eq_dec : EqDecision reader.
Proof. solve_decision. Defined.

Global Instance entry_eq_dec : EqDecision entry.
Proof. solve_decision. Defined.

(** ** The module heapq *)

Section heapq.
Context {A : Type} (lt : A -> A -> result bool).

(** [heap[pos]] and [heap[pos] = x]. *)
Definition getitem (heap : list A) (pos : nat) : result A :=
  match heap !! pos with
  | Some x => Ok x
  | None => Raise IndexError
  end.

Definition setitem (heap : list A) (pos : nat) (x : A) : result (list A) :=
  if decide (pos < length heap) then Ok (<[ pos := x ]> heap) else Raise IndexError.

(** The loop of [_siftdown]; [pos] decreases, so [pos] steps are enough. *)
Fixpoint siftdown_loop (steps : nat) (heap : list A) (newitem : A)
    (startpos pos : nat) : result (list A) :=
  match steps with
  | O => setitem heap pos newitem
  | S steps' =>
      if decide (startpos < pos) then
        let parentpos := (pos - 1) / 2 in
        parent ← getitem heap parentpos;
        b ← lt newitem parent;
        if b : bool then
          heap' ← setitem heap pos parent;
          siftdown_loop steps' heap' newitem startpos parentpos
        else setitem heap pos newitem
      else setitem heap pos newitem
  end.

Definition _siftdown (heap : list A) (startpos pos : nat) : result (list A) :=
  newitem ← getitem heap pos;
  siftdown_loop pos heap newitem startpos pos.

(** The loop of [_siftup]; [pos] increases up to [endpos]. *)
Fixpoint siftup_loop (steps : nat) (heap : list A) (endpos pos : nat) :
    result (list A * nat) :=
  match steps with
  | O => Ok (heap, pos)
  | S steps' =>
      let childpos := 2 * pos + 1 in
      if decide (childpos < endpos) then
        let rightpos := childpos + 1 in
        childpos ←
          (if decide (rightpos < endpos) then
             l ← getitem heap childpos;
             r ← getitem heap rightpos;
             b ← lt l r;
             Ok (if b : bool then childpos else rightpos)
           else Ok childpos);
        c ← getitem heap childpos;
        heap' ← setitem heap pos c;
        siftup_loop steps' heap' endpos childpos
      else Ok (heap, pos)
  end.

Definition _siftup (heap : list A) (pos : nat) : result (list A) :=
  let endpos := length heap in
  let startpos := pos in
  newitem ← getitem heap pos;
  '(heap', pos') ← siftup_loop endpos heap endpos pos;
  heap'' ← setitem heap' pos' newitem;
  _siftdown heap'' startpos pos'.

Definition heappush (heap : list A) (item : A) : result (list A) :=
  let heap := heap ++ [item] in
  _siftdown heap 0 (length heap - 1).

Definition heappop (heap : list A) : result (A * list A) :=
  match reverse heap with
  | [] => Raise IndexError
  | lastelt :: rev_rest =>
      let heap := reverse rev_rest in
      match heap with
      | [] => Ok (lastelt, heap)
      | returnitem :: _ =>
          heap' ← setitem heap 0 lastelt;
          heap'' ← _siftup heap' 0;
          Ok (returnitem, heap'')
      end
  end.

End heapq.

(** ** The heap order *)


Section heap_order.
Context {A : Type} (lt : A -> A -> result bool) (le : A -> A -> Prop).







End heap_order.

(** ** The distributed buffer *)

Module STMPIBuffer.

(** An [STCSVBuffer] with the rank and size given at construction.  The
    module-level [MPI_rank] and [MPI_size] (of the runtime) are arguments of
    the functions that read them. *)
Record t := Build {
  base : STCSVBuffer.t;
  mpi_rank : nat;
  mpi_size : nat
}.

Definition node_file (cache_dir : string) (r : nat) : string :=
  path_join cache_dir (".bmtk.spikes.cache.node" +:+ pretty r +:+ ".csv").

(** Only rank 0 looks for the directory; the barrier lets every rank pass. *)
Definition _cache_fname (rank : nat) (fs : filesystem)
    (self_cache_dir cache_dir : string) : result string :=
  if bool_decide (rank = 0) && negb (path_exists fs self_cache_dir)
  then Raise AttributeError
  else Ok (node_file self_cache_dir rank).

Definition init (MPI_rank MPI_size : nat) (pop_na : string)
    (cache_dir default_population : option string) (units : option string)
    (kw_MPI_rank kw_MPI_size : option nat) (fs : filesystem) :
    result (t * filesystem) :=
  let rank := default MPI_rank kw_MPI_rank in
  let size := default MPI_size kw_MPI_size in
  '(b, fs') ← STCSVBuffer.init_with (_cache_fname rank) pop_na cache_dir
                default_population units fs;
  Ok (Build b rank size, fs').

Definition _all_cached_files (MPI_size : nat) (self : t) : list string :=
  node_file (STCSVBuffer._cache_dir (base self)) <$> seq 0 MPI_size.

Definition add_spike (pop_na : string) (self : t) (node_id : Z) (timestamp : Q)
    (population : option string) : result t :=
  b ← STCSVBuffer.add_spike pop_na (base self) node_id timestamp population;
  Ok (Build b (mpi_rank self) (mpi_size self)).

Definition flush (self : t) (fs : filesystem) : result (t * filesystem) :=
  '(b, fs') ← STCSVBuffer.flush (base self) fs;
  Ok (Build b (mpi_rank self) (mpi_size self), fs').

Definition close (self : t) (fs : filesystem) : option exn * t * filesystem :=
  let '(e, b, fs') := STCSVBuffer.close (base self) fs in
  (e, Build b (mpi_rank self) (mpi_size self), fs').

(** [_gather]: the counts are recomputed from the files of all ranks. *)
Definition count_rows (counts : gmap (option string) nat) (rows : list row) :
    gmap (option string) nat :=
  foldl (fun c row => <[ Some (pop row) := default 0 (c !! Some (pop row)) + 1 ]> c)
    counts rows.

Fixpoint gather_files (fs : filesystem) (files : list string)
    (counts : gmap (option string) nat) : option exn * gmap (option string) nat :=
  match files with
  | [] => (None, counts)
  | fn :: rest =>
      match fs_read fs fn with
      | Raise e => (Some e, counts)
      | Ok rows => gather_files fs rest (count_rows counts rows)
      end
  end.

(** The counts gathered replace those of the buffer, also when a file is
    missing and the scan stops there. *)
Definition _gather (MPI_size : nat) (self : t) (fs : filesystem) : option exn * t :=
  let '(e, counts) := gather_files fs (_all_cached_files MPI_size self) ∅ in
  (e, Build (STCSVBuffer.set_counts (base self) counts) (mpi_rank self) (mpi_size self)).

Definition n_spikes (MPI_size : nat) (self : t) (fs : filesystem)
    (population : option string) : result nat * t :=
  let '(e, self') := _gather MPI_size self fs in
  (match e with
   | Some e => Raise e
   | None => Ok (default 0 (STCSVBuffer._pop_counts (base self') !! population))
   end, self').

Definition to_dataframe (self : t) (node_ids : option (list Z))
    (populations : option pops_arg) (time_window : option (Q * Q))
    (sort_order : SortOrder) : result (list spike) :=
  STCSVBuffer.to_dataframe (base self) node_ids populations time_window sort_order.

Definition time_range (self : t) : result (Q * Q) :=
  STCSVBuffer.time_range (base self).

(** [_unsorted_itr]: the files one after the other. *)
Fixpoint unsorted_files (fs : filesystem) (filter : string -> Q -> bool)
    (files : list string) : run spike :=
  match files with
  | [] => g_return
  | fn :: rest =>
      g_try (fs_read fs fn) (fun rows =>
        g_seq (STCSVBuffer.scan_rows filter rows) (unsorted_files fs filter rest))
  end.

Definition _unsorted_itr (MPI_size : nat) (self : t) (fs : filesystem)
    (filter : string -> Q -> bool) : run spike :=
  g_seq (unsorted_files fs filter (_all_cached_files MPI_size self))
        (g_raise StopIteration).

(** [next_row]: the next line of the reader as a heap item, [None] at the end
    of the file. *)
Definition next_row (sort_col : nat) (csv_reader : reader) :
    result (option entry) :=
  match rd_rest csv_reader with
  | [] => Ok None
  | row :: rest =>
      key ← getitem (row_list row) sort_col;
      Ok (Some (Entry key row (Reader (rd_id csv_reader) rest)))
  end.

(** One reader per file, each already advanced by one line. *)
Fixpoint open_readers (fs : filesystem) (sort_col : nat) (id : nat)
    (files : list string) : result (list (option entry)) :=
  match files with
  | [] => Ok []
  | fn :: rest =>
      rows ← fs_read fs fn;
      r ← next_row sort_col (Reader id rows);
      rs ← open_readers fs sort_col (S id) rest;
      Ok (r :: rs)
  end.

Fixpoint push_all (h : list (option entry)) (readers : list (option entry)) :
    result (list (option entry)) :=
  match readers with
  | [] => Ok h
  | r :: rest =>
      h' ← heappush item_lt h r;
      push_all h' rest
  end.

(** The loop [while h]: at most [steps] rounds.  The filter receives
    [row[1]] and [row[2]], the population and the node id. *)
Fixpoint merge_loop (steps : nat) (sort_col : nat) (filter : string -> Q -> bool)
    (h : list (option entry)) : option (run spike) :=
  match h with
  | [] => Some g_return
  | _ :: _ =>
      match steps with
      | O => None
      | S steps' =>
          match heappop item_lt h with
          | Raise e => Some (g_raise e)
          | Ok (None, _) => Some (g_raise TypeError)
          | Ok (Some (Entry v row csv_reader), h1) =>
              match n ← next_row sort_col csv_reader;
                    match n with
                    | Some _ => heappush item_lt h1 n
                    | None => Ok h1
                    end with
              | Raise e => Some (g_raise e)
              | Ok h2 =>
                  rest ← merge_loop steps' sort_col filter h2;
                  Some (if filter (pop row) (inject_Z (node row))
                        then g_yield (row_spike row) rest
                        else rest)
              end
          end
      end
  end.

(** Every round takes one line out of the heap or the readers. *)
Definition lines_left (h : list (option entry)) : nat :=
  sum_list ((fun it =>
    match it with
    | Some e => S (length (rd_rest (e_reader e)))
    | None => 1
    end) <$> h).

Definition _sorted_itr (MPI_size : nat) (self : t) (fs : filesystem)
    (filter : string -> Q -> bool) (sort_col : nat) : run spike :=
  g_try (open_readers fs sort_col 0 (_all_cached_files MPI_size self))
    (fun readers =>
       g_try (push_all [] readers) (fun h =>
         default g_return (merge_loop (lines_left h) sort_col filter h))).

(** The loop that sorts the files one by one; a failure leaves the files
    sorted so far as they are. *)
Fixpoint sort_files (fs : filesystem) (files : list string)
    (sort_order : SortOrder) : option exn * filesystem :=
  match files with
  | [] => (None, fs)
  | file_name :: rest =>
      match STCSVBuffer._sort_buffer_file fs file_name sort_order with
      | Raise e => (Some e, fs)
      | Ok fs' => sort_files fs' rest sort_order
      end
  end.

(** [spikes] is an ordinary function that returns one of the two generators:
    the flush and the sorting of the files happen at the call. *)
Definition spikes (MPI_size : nat) (self : t) (fs : filesystem)
    (node_ids : option (list Z)) (populations : option pops_arg)
    (time_window : option (Q * Q)) (sort_order : SortOrder) :
    run spike * t * filesystem :=
  match flush self fs with
  | Raise e => (Run [] (Some e), self, fs)
  | Ok (self1, fs1) =>
      let filter := _create_filter populations time_window in
      if bool_decide (sort_order = by_time) || bool_decide (sort_order = by_id) then
        match sort_files fs1 (_all_cached_files MPI_size self1) sort_order with
        | (Some e, fs2) => (Run [] (Some e), self1, fs2)
        | (None, fs2) =>
            (_sorted_itr MPI_size self1 fs2 filter
               (if bool_decide (sort_order = by_time) then 0 else 1), self1, fs2)
        end
      else (_unsorted_itr MPI_size self1 fs1 filter, self1, fs1)
  end.

Definition add_spikes (pop_na : string) (self : t) (node_ids : ids_arg)
    (timestamps : list Q) (population : option string) : result t :=
  b ← STCSVBuffer.add_spikes pop_na (base self) node_ids timestamps population;
  Ok (Build b (mpi_rank self) (mpi_size self)).

(** [populations] gathers first. *)
Definition populations (MPI_size : nat) (self : t) (fs : filesystem) :
    result (list (option string)) * t :=
  let '(e, self') := _gather MPI_size self fs in
  (match e with
   | Some e => Raise e
   | None => Ok (STCSVBuffer.populations (base self'))
   end, self').

(** The inherited [get_times], on the [spikes] of this class. *)
Definition get_times (MPI_size : nat) (self : t) (fs : filesystem) (node_id : Z)
    (population : option string) (time_window : option (Q * Q)) :
    result (list Q) * t * filesystem :=
  let '(r, self', fs') := spikes MPI_size self fs None None time_window none in
  (STCSVBuffer.times_of_run node_id r, self', fs').

End STMPIBuffer.

(** ** Concrete runs *)

(** A working directory, with no file in it yet. *)
Definition cwd : filesystem := FS {[ "." ]} ∅.

(** A memory buffer that recorded node 7 at 0.5 ms, then node 3 at 1.5 ms. *)
Definition mem_two_spikes : STMemoryBuffer.t :=
  STMemoryBuffer.add_spike
    (STMemoryBuffer.add_spike (STMemoryBuffer.init "NA" None None)
       7 0.5%Q (Some "B"))
    3 1.5%Q (Some "A").

(** Scenario A of the specification: node 3 at 1.5 ms under ["A"], then
    node 7 at 0.5 ms under ["B"]. *)
Definition mem_scenario_a : STMemoryBuffer.t :=
  STMemoryBuffer.add_spike
    (STMemoryBuffer.add_spike (STMemoryBuffer.init "NA" None None)
       3 1.5%Q (Some "A"))
    7 0.5%Q (Some "B").

(** A memory buffer with default population ["A"] and one spike recorded
    without a population. *)
Definition mem_default_spike : STMemoryBuffer.t :=
  STMemoryBuffer.add_spike (STMemoryBuffer.init "NA" (Some "A") None)
    1 0.5%Q None.

(** [add_spike] for each line, in order. *)
Definition record_all (pop_na : string) (self : STMPIBuffer.t) (rows : list row) :
    result STMPIBuffer.t :=
  foldl (fun acc r =>
           b ← acc;
           STMPIBuffer.add_spike pop_na b (node r) (ts r) (Some (pop r)))
        (Ok self) rows.

(** Two ranks share the working directory; each records its lines and
    flushes, then rank 0 reads. *)
Definition two_rank_read (rank0 rank1 : list row)
    (time_window : option (Q * Q)) (sort_order : SortOrder) :
    result (run spike) :=
  '(b0, fs) ← STMPIBuffer.init 0 2 "NA" None None None None None cwd;
  '(b1, fs) ← STMPIBuffer.init 1 2 "NA" None None None None None fs;
  b0 ← record_all "NA" b0 rank0;
  b1 ← record_all "NA" b1 rank1;
  '(b0, fs) ← STMPIBuffer.flush b0 fs;
  '(b1, fs) ← STMPIBuffer.flush b1 fs;
  Ok (STMPIBuffer.spikes 2 b0 fs None None time_window sort_order).1.1.

(** A single rank records its lines, then reads. *)
Definition one_rank_read (rank0 : list row) (time_window : option (Q * Q))
    (sort_order : SortOrder) : result (run spike) :=
  '(b0, fs) ← STMPIBuffer.init 0 1 "NA" None None None None None cwd;
  b0 ← record_all "NA" b0 rank0;
  Ok (STMPIBuffer.spikes 1 b0 fs None None time_window sort_order).1.1.

(** A file buffer in the working directory with one spike written and not
    yet flushed, and the file system around it. *)
Definition csv_open : STCSVBuffer.t :=
  {| STCSVBuffer._default_population := "NA";
     STCSVBuffer._cache_dir := ".";
     STCSVBuffer._buffer_filename := "./.bmtk.spikes.cache.csv";
     STCSVBuffer._buffer_handle := Handle false [Row 1.5 "A" 3];
     STCSVBuffer._pop_counts := {[ Some "NA" := 0; Some "A" := 1 ]};
     STCSVBuffer._nspikes := 1;
     STCSVBuffer._units := "ms" |}.

Definition csv_open_fs : filesystem :=
  FS {[ "." ]} {[ "./.bmtk.spikes.cache.csv" := [] ]}.

(** A file buffer with default population ["A"] after one spike recorded
    without a population. *)
Definition csv_default_spike : result STCSVBuffer.t :=
  '(b, fs) ← STCSVBuffer.init "NA" None (Some "A") None cwd;
  STCSVBuffer.add_spike "NA" b 1 0.5%Q None.

(** Rank 0 of two ranks, with one spike written and not yet flushed; rank 1
    has created its file and written nothing. *)
Definition mpi_rank0 : STMPIBuffer.t :=
  STMPIBuffer.Build
    {| STCSVBuffer._default_population := "NA";
       STCSVBuffer._cache_dir := ".";
       STCSVBuffer._buffer_filename := "./.bmtk.spikes.cache.node0.csv";
       STCSVBuffer._buffer_handle := Handle false [Row 1.0 "A" 0];
       STCSVBuffer._pop_counts := {[ Some "NA" := 0; Some "A" := 1 ]};
       STCSVBuffer._nspikes := 1;
       STCSVBuffer._units := "ms" |} 0 2.

Definition mpi_two_files : filesystem :=
  FS {[ "." ]} {[ "./.bmtk.spikes.cache.node0.csv" := [];
                  "./.bmtk.spikes.cache.node1.csv" := [] ]}.

(** The same after rank 0 has flushed. *)
Definition mpi_rank0_flushed : STMPIBuffer.t :=
  STMPIBuffer.Build
    (STCSVBuffer.set_handle (STMPIBuffer.base mpi_rank0) (Handle false [])) 0 2.

Definition mpi_two_files_flushed : filesystem :=
  FS {[ "." ]} {[ "./.bmtk.spikes.cache.node0.csv" := [Row 1.0 "A" 0];
                  "./.bmtk.spikes.cache.node1.csv" := [] ]}.

(** A call [add_spike(node_id, timestamp, population)]; [None] when the
    population is omitted. *)
Definition call : Type := Z * Q * option string.

(** The calls applied one after the other to a memory buffer. *)
Definition mem_record (self : STMemoryBuffer.t) (calls : list call) :
    STMemoryBuffer.t :=
  foldl (fun b c => STMemoryBuffer.add_spike b c.1.1 c.1.2 c.2) self calls.

(** The triple a call stands for, once an omitted population is resolved to
    the default population [dp]. *)
Definition resolved (dp : string) (c : call) : spike :=
  (c.1.2, str_or c.2 dp, c.1.1).

(** ** Predicates used in the statements *)

(** Sorting a file changes neither which files exist nor how many lines each
    has. *)
Definition same_sizes (fs fs' : filesystem) : Prop :=
  forall fn, length <$> (fs_files fs' !! fn) = length <$> (fs_files fs !! fn).

(** ** The merge, in terms of the lines still to deliver *)










(** The test the merge applies to a line: [filter(row[1], row[2])]. *)
Definition merge_keeps (filter : string -> Q -> bool) (r : row) : Prop :=
  filter (pop r) (inject_Z (node r)) = true.

Global Instance merge_keeps_dec filter r : Decision (merge_keeps filter r).
Proof. unfold merge_keeps. apply _. Defined.




(** The same orders on the triples a reader yields. *)
Definition spike_by_ts (a b : spike) : Prop := (a.1.1 <= b.1.1)%Q.

(** The test the other readers apply: [filter(p=p, t=t)]. *)
Definition spike_keeps (filter : string -> Q -> bool) (s : spike) : Prop :=
  filter s.1.2 s.1.1 = true.

Global Instance spike_keeps_dec filter s : Decision (spike_keeps filter s).
Proof. unfold spike_keeps. apply _. Defined.

Definition row_keeps (filter : string -> Q -> bool) (r : row) : Prop :=
  filter (pop r) (ts r) = true.

Global Instance row_keeps_dec filter r : Decision (row_keeps filter r).
Proof. unfold row_keeps. apply _. Defined.

(** ** Further definitions used in the statements *)

(** ** What a call selects *)

(** The calls [get_times(node_id, population, time_window)] asks for, with
    [d] the default population of the buffer. *)
Definition call_selected (d : string) (node_id : Z) (population : option string)
    (time_window : option (Q * Q)) (c : call) : bool :=
  bool_decide (c.1.1 = node_id)
  && bool_decide (str_or c.2 d = str_or population d)
  && match time_window with
     | Some tw => Qle_bool tw.1 c.1.2 && Qle_bool c.1.2 tw.2
     | None => true
     end.

(** The sum of the counts kept per population. *)
Definition total_count (counts : gmap (option string) nat) : nat :=
  map_fold (fun _ n acc => n + acc) 0 counts.

(** The calls applied one after the other to a file buffer; the first
    exception ends the sequence. *)
Definition csv_record (pop_na : string) (self : STCSVBuffer.t) (calls : list call) :
    result STCSVBuffer.t :=
  foldl (fun acc c => b ← acc; STCSVBuffer.add_spike pop_na b c.1.1 c.1.2 c.2)
    (Ok self) calls.

(** The line a call writes: an omitted population is written as [pop_na]. *)
Definition call_row (pop_na : string) (c : call) : row :=
  Row c.1.2 (str_or c.2 pop_na) c.1.1.









(** A file buffer just started in the working directory. *)
Definition csv_fresh : STCSVBuffer.t :=
  {| STCSVBuffer._default_population := "NA";
     STCSVBuffer._cache_dir := ".";
     STCSVBuffer._buffer_filename := "./.bmtk.spikes.cache.csv";
     STCSVBuffer._buffer_handle := Handle false [];
     STCSVBuffer._pop_counts := {[ Some "NA" := 0 ]};
     STCSVBuffer._nspikes := 0;
     STCSVBuffer._units := "ms" |}.

(** Rank 0 of two ranks with one spike pending, as [mpi_rank0], when rank 1
    has flushed one spike of its own: before and after the flush of rank 0. *)
Definition mpi_both_files : filesystem :=
  FS {[ "." ]} {[ "./.bmtk.spikes.cache.node0.csv" := [];
                  "./.bmtk.spikes.cache.node1.csv" := [Row 0.5 "B" 1] ]}.




(** * Properties *)

(** C7. The predicate of the filter builder accepts [(p, t)] iff the
    population constraint is absent or [p] is the requested label (or one of
    the requested labels), and the time window is absent or
    [lo <= t <= hi], both ends included. *)
Theorem create_filter_correct (populations : option pops_arg)
    (time_window : option (Q * Q)) (p : string) (t : Q) :
  _create_filter populations time_window p t = true <->
  (match populations with
   | None => True
   | Some (PopScalar s) => p = s
   | Some (PopColl l) => p ∈ l
   end) /\
  (match time_window with
   | None => True
   | Some (lo, hi) => (lo <= t)%Q /\ (t <= hi)%Q
   end).
Proof.
  unfold _create_filter, _spikes_filter1, _spikes_filter2, _spikes_filter3.
  destruct populations as [[s|l]|], time_window as [[lo hi]|]; simpl;
    rewrite ?andb_true_iff, ?bool_decide_eq_true, ?Qle_bool_iff,
      ?list_elem_of_singleton; tauto.
Qed.

(** ** The memory buffer *)

Lemma mem_record_snoc self calls c :
  mem_record self (calls ++ [c])
  = STMemoryBuffer.add_spike (mem_record self calls) c.1.1 c.1.2 c.2.
Proof. unfold mem_record. by rewrite foldl_app. Qed.

Lemma mem_record_default self calls :
  STMemoryBuffer._default_population (mem_record self calls)
  = STMemoryBuffer._default_population self.
Proof.
  induction calls as [|c calls IH] using rev_ind; [done|].
  by rewrite mem_record_snoc.
Qed.

(** The three sequences stay parallel: position [i] holds the [i]-th call. *)
Lemma mem_record_fields pop_na dp units calls :
  let b := mem_record (STMemoryBuffer.init pop_na dp units) calls in
  let d := str_or dp pop_na in
  STMemoryBuffer._timestamps b = (fun c => (resolved d c).1.1) <$> calls /\
  STMemoryBuffer._populations b = (fun c => (resolved d c).1.2) <$> calls /\
  STMemoryBuffer._node_ids b = (fun c => (resolved d c).2) <$> calls.
Proof.
  induction calls as [|c calls IH] using rev_ind; [done|].
  cbv zeta in *. rewrite mem_record_snoc, !fmap_app.
  destruct IH as (Ht & Hp & Hn). unfold STMemoryBuffer.add_spike; simpl.
  rewrite Ht, Hp, Hn, mem_record_default. done.
Qed.

Lemma spikes_loop_all (self : STMemoryBuffer.t) (rows : list spike) (idx : list nat) :
  STMemoryBuffer._timestamps self = (fun s : spike => s.1.1) <$> rows ->
  STMemoryBuffer._populations self = (fun s : spike => s.1.2) <$> rows ->
  STMemoryBuffer._node_ids self = (fun s : spike => s.2) <$> rows ->
  Forall (fun i => i < length rows) idx ->
  STMemoryBuffer.spikes_loop self (fun _ _ => true) idx
  = Run (omap (fun i => rows !! i) idx) None.
Proof.
  intros Ht Hp Hn. induction 1 as [|i idx Hi _ IH]; [done|].
  destruct (lookup_lt_is_Some_2 rows i Hi) as [[[t p] n] Hs].
  simpl. rewrite Ht, Hp, Hn, !list_lookup_fmap, Hs. simpl.
  by rewrite IH.
Qed.

Lemma omap_lookup_seq_from {A} (pre l : list A) :
  omap (fun i => (pre ++ l) !! i) (seq (length pre) (length l)) = l.
Proof.
  revert pre. induction l as [|x l IH]; intros pre; [done|].
  simpl. rewrite lookup_app_r, Nat.sub_diag by lia. simpl. f_equal.
  specialize (IH (pre ++ [x])). rewrite length_app in IH. simpl in IH.
  rewrite Nat.add_1_r in IH. rewrite <- (assoc_L (++)) in IH. exact IH.
Qed.

Lemma omap_lookup_seq {A} (l : list A) :
  omap (fun i => l !! i) (seq 0 (length l)) = l.
Proof. apply (omap_lookup_seq_from [] l). Qed.

(** X1. Round trip of the memory buffer, and how it ends: read back without
    order and without filters, the buffer yields the recorded triples in the
    order of the calls, and the run then ends in a [RuntimeError]. *)
Lemma memory_round_trip pop_na dp units (calls : list call) :
  STMemoryBuffer.spikes (mem_record (STMemoryBuffer.init pop_na dp units) calls)
    None None None none
  = Run (resolved (str_or dp pop_na) <$> calls) (Some RuntimeError).
Proof.
  destruct (mem_record_fields pop_na dp units calls) as (Ht & Hp & Hn).
  cbv zeta in *. set (b := mem_record _ calls) in *.
  set (rows := resolved (str_or dp pop_na) <$> calls).
  assert (Ht' : STMemoryBuffer._timestamps b = (fun s : spike => s.1.1) <$> rows).
  { subst rows. by rewrite <- list_fmap_compose. }
  assert (Hp' : STMemoryBuffer._populations b = (fun s : spike => s.1.2) <$> rows).
  { subst rows. by rewrite <- list_fmap_compose. }
  assert (Hn' : STMemoryBuffer._node_ids b = (fun s : spike => s.2) <$> rows).
  { subst rows. by rewrite <- list_fmap_compose. }
  unfold STMemoryBuffer.spikes. simpl.
  rewrite (spikes_loop_all b rows); try done.
  - rewrite Ht', length_fmap, omap_lookup_seq.
    unfold g_seq, g_raise. simpl. by rewrite app_nil_r.
  - rewrite Ht', length_fmap. apply Forall_forall. intros i Hi%elem_of_seq. lia.
Qed.

(** X2. The count kept for a named population is the number of calls
    recorded under it. *)
Lemma memory_n_spikes_named pop_na dp units (calls : list call) (p : string) :
  STMemoryBuffer.n_spikes (mem_record (STMemoryBuffer.init pop_na dp units) calls)
    (Some p)
  = length (filter (fun c => str_or c.2 (str_or dp pop_na) = p) calls).
Proof.
  unfold STMemoryBuffer.n_spikes.
  induction calls as [|c calls IH] using rev_ind.
  - simpl. destruct (decide (str_or dp pop_na = p)) as [->|Hne].
    + by rewrite lookup_singleton_eq.
    + rewrite lookup_singleton_ne; [done|congruence].
  - rewrite mem_record_snoc, filter_app, length_app.
    unfold STMemoryBuffer.add_spike at 1. simpl STMemoryBuffer._pop_counts.
    rewrite mem_record_default. simpl STMemoryBuffer._default_population.
    rewrite filter_cons, filter_nil.
    destruct (decide (str_or c.2 (str_or dp pop_na) = p)) as [->|Hne].
    + rewrite lookup_insert_eq. simpl. rewrite IH. done.
    + rewrite lookup_insert_ne by congruence. simpl. rewrite IH. by rewrite Nat.add_0_r.
Qed.

(** X3. No call records under the key [None], so the count without a
    population is always 0. *)
Lemma memory_n_spikes_omitted pop_na dp units (calls : list call) :
  STMemoryBuffer.n_spikes (mem_record (STMemoryBuffer.init pop_na dp units) calls)
    None = 0.
Proof.
  unfold STMemoryBuffer.n_spikes.
  induction calls as [|c calls IH] using rev_ind.
  { simpl. by rewrite lookup_singleton_ne. }
  rewrite mem_record_snoc. unfold STMemoryBuffer.add_spike at 1.
  simpl STMemoryBuffer._pop_counts. rewrite lookup_insert_ne by done. exact IH.
Qed.

(** C2. The memory buffer does not order by node id: after node 7 and then
    node 3 were recorded, [spikes(sort_order=by_id)] yields node 7 before
    node 3, the order of insertion. *)
Theorem memory_spikes_by_id_unsorted :
  yielded (STMemoryBuffer.spikes mem_two_spikes None None None by_id)
  = [(0.5%Q, "B", 7%Z); (1.5%Q, "A", 3%Z)].
Proof. vm_compute. reflexivity. Qed.

(** C3. Iterating [spikes(sort_order=none)] of the memory buffer yields the
    two recorded triples and then, instead of ending, lets a [RuntimeError]
    escape: the [StopIteration] raised after the loop. *)
Theorem memory_spikes_ends_in_error :
  STMemoryBuffer.spikes mem_two_spikes None None None none
  = Run [(0.5%Q, "B", 7%Z); (1.5%Q, "A", 3%Z)] (Some RuntimeError).
Proof. vm_compute. reflexivity. Qed.

(** C5. After one [add_spike] without a population on a buffer whose default
    population is ["A"], the spike is counted under ["A"], but [n_spikes()]
    without a population returns 0. *)
Theorem memory_n_spikes_ignores_default :
  STMemoryBuffer.n_spikes mem_default_spike None = 0 /\
  STMemoryBuffer.n_spikes mem_default_spike (Some "A") = 1.
Proof. split; vm_compute; reflexivity. Qed.

(** C4, as stated, fails: [time_range()] on a memory buffer that received no
    spike does not fail with an [EmptyBufferError]. *)
Lemma time_range_empty_not_EmptyBufferError :
  ~ exists e, STMemoryBuffer.time_range (STMemoryBuffer.init "NA" None None)
              = Raise e /\ exn_name e = "EmptyBufferError".
Proof.
  intros (e & He & Hn). vm_compute in He. injection He as <-. discriminate Hn.
Qed.

(** C4, amended. [time_range()] on a memory buffer that received no spike
    fails with the [ValueError] of the minimum of an empty sequence: an
    error and no numeric result, but not an error of its own name. *)
Theorem time_range_empty_ValueError (pop_na : string)
    (default_population units : option string) :
  STMemoryBuffer.time_range (STMemoryBuffer.init pop_na default_population units)
  = Raise (ValueError
             "zero-size array to reduction operation minimum which has no identity").
Proof. reflexivity. Qed.

(** C9, as stated, fails: [to_dataframe()] of a memory buffer that holds two
    spikes returns no table. *)
Lemma to_dataframe_no_snapshot :
  ~ exists df, STMemoryBuffer.to_dataframe mem_two_spikes None None None none
               = Ok df.
Proof. intros (df & H). discriminate H. Qed.

(** C9, amended. [to_dataframe] is a placeholder in every backend: whatever
    the buffer and the arguments, the call raises [NotImplementedError]; so
    does [len()] of a memory buffer, which goes through it. *)
Theorem to_dataframe_not_implemented (node_ids : option (list Z))
    (populations : option pops_arg) (time_window : option (Q * Q))
    (sort_order : SortOrder) :
  (forall m : STMemoryBuffer.t,
     STMemoryBuffer.to_dataframe m node_ids populations time_window sort_order
     = Raise NotImplementedError /\
     STMemoryBuffer.len m = Raise NotImplementedError) /\
  (forall c : STCSVBuffer.t,
     STCSVBuffer.to_dataframe c node_ids populations time_window sort_order
     = Raise NotImplementedError) /\
  (forall d : STMPIBuffer.t,
     STMPIBuffer.to_dataframe d node_ids populations time_window sort_order
     = Raise NotImplementedError).
Proof. repeat split. Qed.

(** ** Outcomes of the heap operations *)

Lemma bind_Ok {A B} (a : A) (k : A -> result B) : (Ok a ≫= k) = k a.
Proof. reflexivity. Qed.

Lemma bind_Raise {A B} (e : exn) (k : A -> result B) : (Raise e ≫= k) = Raise e.
Proof. reflexivity. Qed.

Lemma py_lt_raise a b e : py_lt a b = Raise e -> e = TypeError.
Proof. destruct a, b; simpl; congruence. Qed.

Lemma list_lt_raise a b e : list_lt a b = Raise e -> e = TypeError.
Proof.
  revert b; induction a as [|x a IH]; intros [|y b]; simpl; try congruence.
  destruct (py_eq x y); eauto using py_lt_raise.
Qed.

Lemma item_lt_raise a b e : item_lt a b = Raise e -> e = TypeError.
Proof.
  destruct a as [x|], b as [y|]; simpl; try congruence.
  unfold tuple_lt.
  repeat case_match; eauto using py_lt_raise, list_lt_raise; congruence.
Qed.

Section heapq_outcomes.
Context {A : Type} (lt : A -> A -> result bool).
Hypothesis lt_raise : forall a b e, lt a b = Raise e -> e = TypeError.

Lemma getitem_Ok (heap : list A) pos :
  pos < length heap -> exists x, getitem heap pos = Ok x /\ heap !! pos = Some x.
Proof.
  intros Hpos. destruct (lookup_lt_is_Some_2 heap pos Hpos) as [x Hx].
  exists x. unfold getitem. by rewrite Hx.
Qed.

Lemma setitem_Ok (heap : list A) pos x :
  pos < length heap -> setitem heap pos x = Ok (<[ pos := x ]> heap).
Proof. intros Hpos. unfold setitem. by rewrite decide_True. Qed.

Lemma parent_lt pos : 0 < pos -> (pos - 1) / 2 < pos.
Proof.
  intros Hpos. apply Nat.Div0.div_lt_upper_bound. lia.
Qed.

Lemma siftdown_loop_outcome steps (heap : list A) x pos :
  pos < length heap ->
  (exists h', siftdown_loop lt steps heap x 0 pos = Ok h' /\ length h' = length heap)
  \/ siftdown_loop lt steps heap x 0 pos = Raise TypeError.
Proof.
  revert heap pos. induction steps as [|steps IH]; intros heap pos Hpos; cbn [siftdown_loop].
  - left. rewrite setitem_Ok by done. eexists; split; [done|]. by rewrite length_insert.
  - destruct (decide (0 < pos)) as [H0|H0].
    + pose proof (parent_lt pos H0) as Hpar.
      destruct (getitem_Ok heap ((pos - 1) / 2)) as (p & -> & _); [lia|].
      rewrite bind_Ok. destruct (lt x p) as [[]|e] eqn:Hlt; rewrite ?bind_Ok, ?bind_Raise.
      * rewrite setitem_Ok by done. rewrite bind_Ok.
        destruct (IH (<[pos:=p]> heap) ((pos - 1) / 2)) as [(h' & -> & Hl)| ->].
        { rewrite length_insert. lia. }
        { left. eexists; split; [done|]. by rewrite Hl, length_insert. }
        { by right. }
      * left. rewrite setitem_Ok by done. eexists; split; [done|]. by rewrite length_insert.
      * right. by rewrite (lt_raise _ _ _ Hlt).
    + left. rewrite setitem_Ok by done. eexists; split; [done|]. by rewrite length_insert.
Qed.

Lemma heappush_outcome (heap : list A) x :
  (exists h', heappush lt heap x = Ok h' /\ length h' = S (length heap))
  \/ heappush lt heap x = Raise TypeError.
Proof.
  unfold heappush, _siftdown.
  assert (Hlen : length (heap ++ [x]) = S (length heap)).
  { rewrite length_app. simpl. lia. }
  destruct (getitem_Ok (heap ++ [x]) (length (heap ++ [x]) - 1)) as (y & -> & _); [lia|].
  rewrite bind_Ok.
  destruct (siftdown_loop_outcome (length (heap ++ [x]) - 1) (heap ++ [x]) y
              (length (heap ++ [x]) - 1)) as [(h' & -> & Hl)| ->]; [lia| |by right].
  left. eexists; split; [done|]. lia.
Qed.

End heapq_outcomes.

(** ** A source without lines *)

Lemma getitem_app_last {A} (h : list A) (x : A) :
  getitem (h ++ [x]) (length h) = Ok x.
Proof. unfold getitem. rewrite lookup_app_r by lia. by rewrite Nat.sub_diag. Qed.

Lemma heappush_None_nonempty (h : list (option entry)) :
  h ≠ [] -> heappush item_lt h None = Raise TypeError.
Proof.
  intros Hh. unfold heappush, _siftdown.
  assert (Hlen : length (h ++ [None]) - 1 = length h).
  { rewrite length_app. simpl. lia. }
  rewrite Hlen, getitem_app_last, bind_Ok.
  destruct h as [|a h]; [done|]. cbn [length siftdown_loop].
  rewrite decide_True by lia.
  destruct (getitem_Ok ((a :: h) ++ [None]) ((S (length h) - 1) / 2)) as (p & -> & _).
  { rewrite length_app. cbn [length]. pose proof (parent_lt (S (length h))). lia. }
  reflexivity.
Qed.

Lemma heappush_onto_None (x : option entry) :
  heappush item_lt [None] x = Raise TypeError.
Proof. by destruct x. Qed.

Lemma push_all_None (h readers : list (option entry)) :
  h ≠ [] -> None ∈ readers -> STMPIBuffer.push_all h readers = Raise TypeError.
Proof.
  revert h. induction readers as [|r readers IH]; intros h Hh Hin.
  - by apply elem_of_nil in Hin.
  - simpl. destruct r as [e|].
    + destruct (heappush_outcome item_lt item_lt_raise h (Some e))
        as [(h' & -> & Hl)| ->]; [|done].
      rewrite bind_Ok. apply IH.
      * intros ->. simpl in Hl. lia.
      * apply elem_of_cons in Hin as [?|?]; [done|assumption].
    + by rewrite heappush_None_nonempty.
Qed.

Lemma push_all_from_empty (readers : list (option entry)) :
  None ∈ readers ->
  STMPIBuffer.push_all [] readers = Raise TypeError
  \/ readers = [None].
Proof.
  destruct readers as [|r readers]; intros Hin.
  - by apply elem_of_nil in Hin.
  - destruct r as [e|].
    + left.
      change (STMPIBuffer.push_all [] (Some e :: readers))
        with (STMPIBuffer.push_all [Some e] readers).
      apply push_all_None; [done|].
      apply elem_of_cons in Hin as [?|?]; [done|assumption].
    + destruct readers as [|r' readers]; [by right|left].
      change (STMPIBuffer.push_all [] (None :: r' :: readers))
        with (heappush item_lt [None] r' ≫= fun h' => STMPIBuffer.push_all h' readers).
      by rewrite heappush_onto_None.
Qed.

Lemma sorted_merge_of_None (readers : list (option entry)) sort_col filter :
  None ∈ readers ->
  g_try (STMPIBuffer.push_all [] readers) (fun h =>
    default g_return
      (STMPIBuffer.merge_loop (STMPIBuffer.lines_left h) sort_col filter h))
  = Run [] (Some TypeError).
Proof.
  intros Hin. destruct (push_all_from_empty readers Hin) as [-> | ->]; reflexivity.
Qed.

Lemma next_row_Ok sort_col id rows :
  sort_col < 3 ->
  exists it, STMPIBuffer.next_row sort_col (Reader id rows) = Ok it
             /\ (rows = [] -> it = None).
Proof.
  intros Hc. destruct rows as [|row rest]; simpl.
  - by exists None.
  - unfold STMPIBuffer.next_row. simpl rd_rest.
    destruct (getitem_Ok (row_list row) sort_col) as (key & -> & _); [simpl; lia|].
    rewrite bind_Ok. eexists; split; [done|]. done.
Qed.

Lemma open_readers_empty fs sort_col id files fn0 :
  sort_col < 3 ->
  (forall fn, fn ∈ files -> is_Some (fs_files fs !! fn)) ->
  fn0 ∈ files -> fs_files fs !! fn0 = Some [] ->
  exists readers, STMPIBuffer.open_readers fs sort_col id files = Ok readers
                  /\ None ∈ readers.
Proof.
  intros Hc. revert id. induction files as [|fn files IH]; intros id Hall Hin Hnil.
  - by apply elem_of_nil in Hin.
  - simpl. destruct (Hall fn) as [rows Hrows]; [left|].
    unfold fs_read at 1. rewrite Hrows, bind_Ok.
    destruct (next_row_Ok sort_col id rows Hc) as (it & -> & Hit). rewrite bind_Ok.
    destruct (decide (fn0 ∈ files)) as [Hin'|Hin'].
    + destruct (IH (S id)) as (readers & -> & Hr); [|done|done|].
      { intros f Hf. apply Hall. by right. }
      rewrite bind_Ok. eexists; split; [done|]. by right.
    + apply elem_of_cons in Hin as [->|?]; [|done].
      assert (rows = []) as -> by congruence. rewrite (Hit eq_refl).
      assert (exists readers, STMPIBuffer.open_readers fs sort_col (S id) files = Ok readers)
        as [readers ->].
      { clear -Hc Hall. revert id. induction files as [|f files IH]; intros id.
        - by exists [].
        - simpl. destruct (Hall f) as [rows Hrows]; [right; left|].
          unfold fs_read at 1. rewrite Hrows, bind_Ok.
          destruct (next_row_Ok sort_col (S id) rows Hc) as (it & -> & _).
          rewrite bind_Ok.
          destruct (IH (fun g Hg => Hall g ltac:(apply elem_of_cons in Hg as [->|?];
            [left|right; by right])) (S id)) as [readers ->].
          rewrite bind_Ok. by eexists. }
      rewrite bind_Ok. eexists; split; [done|]. left.
Qed.

Lemma length_insert_by {A} (le : A -> A -> bool) x (l : list A) :
  length (insert_by le x l) = S (length l).
Proof. induction l as [|y l IH]; simpl; [done|]. destruct (le x y); simpl; lia. Qed.

Lemma length_sort_by {A} (le : A -> A -> bool) (l : list A) :
  length (sort_by le l) = length l.
Proof.
  induction l as [|x l IH]; [done|].
  change (sort_by le (x :: l)) with (insert_by le x (sort_by le l)).
  by rewrite length_insert_by, IH.
Qed.

Lemma length_pd_frame (rows : list row) : length (pd_frame rows) = length rows.
Proof. unfold pd_frame. apply length_fmap. Qed.

Lemma sort_buffer_file_sizes fs fn so :
  is_Some (fs_files fs !! fn) ->
  exists fs', STCSVBuffer._sort_buffer_file fs fn so = Ok fs' /\ same_sizes fs fs'.
Proof.
  intros [rows Hrows]. unfold STCSVBuffer._sort_buffer_file, fs_read.
  rewrite Hrows.
  destruct so; rewrite ?bind_Ok; (eexists; split; [done|]); intros f; simpl;
    try done;
    (destruct (decide (fn = f)) as [<-|Hne];
       [rewrite lookup_insert_eq, Hrows; simpl;
        by rewrite length_sort_by, length_pd_frame
       |by rewrite lookup_insert_ne]).
Qed.

Lemma sort_files_sizes fs files so :
  (forall fn, fn ∈ files -> is_Some (fs_files fs !! fn)) ->
  exists fs', STMPIBuffer.sort_files fs files so = (None, fs') /\ same_sizes fs fs'.
Proof.
  revert fs. induction files as [|fn files IH]; intros fs Hall; simpl.
  - by exists fs.
  - destruct (sort_buffer_file_sizes fs fn so) as (fs1 & -> & H1); [apply Hall; left|].
    destruct (IH fs1) as (fs2 & -> & H2).
    { intros f Hf. specialize (Hall f ltac:(by right)).
      rewrite <- (fmap_is_Some length), H1, fmap_is_Some. done. }
    exists fs2; split; [done|]. intros f. by rewrite H2, H1.
Qed.

Lemma same_sizes_nil fs fs' fn :
  same_sizes fs fs' -> fs_files fs !! fn = Some [] -> fs_files fs' !! fn = Some [].
Proof.
  intros H Hnil. specialize (H fn). rewrite Hnil in H.
  destruct (fs_files fs' !! fn) as [[|]|]; simpl in H; congruence.
Qed.

(** C10. If the file of some rank holds no line, sorted retrieval by the
    distributed buffer fails in the merge: the files are sorted, then the
    merge yields nothing and ends in a [TypeError], whatever the other files
    hold. *)
Theorem merge_fails_on_empty_source (MPI_size : nat) (self self1 : STMPIBuffer.t)
    (fs fs1 : filesystem) (node_ids : option (list Z))
    (populations : option pops_arg) (time_window : option (Q * Q))
    (sort_order : SortOrder) (r : nat) :
  sort_order = by_time \/ sort_order = by_id ->
  STMPIBuffer.flush self fs = Ok (self1, fs1) ->
  (forall k, k < MPI_size ->
     is_Some (fs_files fs1 !!
       STMPIBuffer.node_file (STCSVBuffer._cache_dir (STMPIBuffer.base self1)) k)) ->
  r < MPI_size ->
  fs_files fs1 !!
    STMPIBuffer.node_file (STCSVBuffer._cache_dir (STMPIBuffer.base self1)) r
    = Some [] ->
  exists fs2,
    STMPIBuffer.sort_files fs1 (STMPIBuffer._all_cached_files MPI_size self1)
      sort_order = (None, fs2) /\
    STMPIBuffer._sorted_itr MPI_size self1 fs2
      (_create_filter populations time_window)
      (if bool_decide (sort_order = by_time) then 0 else 1)
      = Run [] (Some TypeError) /\
    STMPIBuffer.spikes MPI_size self fs node_ids populations time_window sort_order
      = (Run [] (Some TypeError), self1, fs2).
Proof.
  intros Hso Hflush Hall Hr Hnil.
  set (files := STMPIBuffer._all_cached_files MPI_size self1).
  assert (Hfiles : forall fn, fn ∈ files -> is_Some (fs_files fs1 !! fn)).
  { intros fn (k & -> & Hk%elem_of_seq)%list_elem_of_fmap. apply Hall. lia. }
  destruct (sort_files_sizes fs1 files sort_order Hfiles) as (fs2 & Hsort & Hsz).
  assert (Hitr : STMPIBuffer._sorted_itr MPI_size self1 fs2
            (_create_filter populations time_window)
            (if bool_decide (sort_order = by_time) then 0 else 1)
          = Run [] (Some TypeError)).
  { unfold STMPIBuffer._sorted_itr. fold files.
    destruct (open_readers_empty fs2
                (if bool_decide (sort_order = by_time) then 0 else 1) 0 files
                (STMPIBuffer.node_file
                   (STCSVBuffer._cache_dir (STMPIBuffer.base self1)) r))
      as (readers & -> & Hin).
    - case_bool_decide; lia.
    - intros fn Hfn. specialize (Hfiles fn Hfn).
      rewrite <- (fmap_is_Some length), Hsz, fmap_is_Some. done.
    - apply list_elem_of_fmap. exists r. split; [done|]. apply elem_of_seq. lia.
    - by apply (same_sizes_nil fs1).
    - simpl. by apply sorted_merge_of_None. }
  exists fs2. split; [done|]. split; [done|].
  unfold STMPIBuffer.spikes. rewrite Hflush. fold files.
  assert (bool_decide (sort_order = by_time) || bool_decide (sort_order = by_id) = true)
    as ->.
  { destruct Hso as [-> | ->]; done. }
  rewrite Hsort. by rewrite Hitr.
Qed.

(** The state [mpi_rank0] is the one the code reaches when two ranks are
    started in the working directory and rank 0 records one spike. *)
Lemma mpi_rank0_reached :
  ('(b0, fs) ← STMPIBuffer.init 0 2 "NA" None None None None None cwd;
   '(b1, fs) ← STMPIBuffer.init 1 2 "NA" None None None None None fs;
   b0 ← STMPIBuffer.add_spike "NA" b0 0 1.0%Q (Some "A");
   Ok (b0, fs)) = Ok (mpi_rank0, mpi_two_files).
Proof. vm_compute. reflexivity. Qed.

(** An instance: rank 1 has written nothing, and rank 0 reads by time. *)
Lemma merge_fails_on_empty_source_witness :
  exists self1 fs2,
    STMPIBuffer.spikes 2 mpi_rank0 mpi_two_files None None None by_time
      = (Run [] (Some TypeError), self1, fs2).
Proof.
  destruct (merge_fails_on_empty_source 2 mpi_rank0 mpi_rank0_flushed
              mpi_two_files mpi_two_files_flushed None None None by_time 1)
    as (fs2 & _ & _ & H).
  - left. reflexivity.
  - vm_compute. reflexivity.
  - intros k Hk. destruct k as [|[|k]]; [vm_compute; eauto..|lia].
  - lia.
  - vm_compute. reflexivity.
  - eauto.
Defined.

(** ** Closing a file-backed buffer *)

Lemma set_handle_same (self : STCSVBuffer.t) :
  STCSVBuffer.set_handle self (STCSVBuffer._buffer_handle self) = self.
Proof. by destruct self. Qed.

(** After [close()], called twice, the file buffer [csv_open] has no file
    left and still answers: [n_spikes("A")] is 1, the count of before, and
    ["A"] is among its populations.  Not every read of a closed buffer
    fails. *)
Lemma closed_buffer_still_counts :
  let once := STCSVBuffer.close csv_open csv_open_fs in
  let twice := STCSVBuffer.close once.1.2 once.2 in
  twice.1.1 = None /\
  fs_files twice.2 !! "./.bmtk.spikes.cache.csv" = None /\
  STCSVBuffer.n_spikes twice.1.2 (Some "A") = 1 /\
  Some "A" ∈ STCSVBuffer.populations twice.1.2.
Proof.
  cbv zeta. split; [vm_compute; reflexivity|]. split; [vm_compute; reflexivity|].
  split; [vm_compute; reflexivity|].
  unfold STCSVBuffer.populations. apply elem_of_elements, elem_of_dom.
  exists 1. vm_compute. reflexivity.
Qed.

(** C8. Provided the backing path is not a directory, [close()] succeeds and
    leaves no backing file, a second [close()] succeeds and changes nothing,
    and reading the records afterwards, by [spikes(...)] with any arguments,
    yields no record and fails with the error of a closed file,
    [ValueError: I/O operation on closed file].  The same holds for the
    distributed buffer built on the file buffer, and [get_times] fails
    with the same error.  [n_spikes] and [populations] of the file buffer do
    not touch the file: after the two calls of [close()] they answer as they
    did before. *)
Theorem close_twice_then_read (self : STCSVBuffer.t) (fs : filesystem)
    (rank size MPI_size : nat) (node_ids : option (list Z))
    (populations : option pops_arg) (time_window : option (Q * Q))
    (sort_order : SortOrder) (population : option string) (node_id : Z) :
  STCSVBuffer._buffer_filename self ∉ fs_dirs fs ->
  exists self1 fs1,
    STCSVBuffer.close self fs = (None, self1, fs1) /\
    STCSVBuffer.close self1 fs1 = (None, self1, fs1) /\
    fs_files fs1 !! STCSVBuffer._buffer_filename self = None /\
    STCSVBuffer.spikes self1 fs1 node_ids populations time_window sort_order
      = (Run [] (Some closed_file), self1, fs1) /\
    STMPIBuffer.close (STMPIBuffer.Build self rank size) fs
      = (None, STMPIBuffer.Build self1 rank size, fs1) /\
    STMPIBuffer.close (STMPIBuffer.Build self1 rank size) fs1
      = (None, STMPIBuffer.Build self1 rank size, fs1) /\
    STMPIBuffer.spikes MPI_size (STMPIBuffer.Build self1 rank size) fs1
      node_ids populations time_window sort_order
      = (Run [] (Some closed_file), STMPIBuffer.Build self1 rank size, fs1) /\
    STCSVBuffer.n_spikes self1 population = STCSVBuffer.n_spikes self population /\
    STCSVBuffer.populations self1 = STCSVBuffer.populations self /\
    STCSVBuffer.get_times self1 fs1 node_id population time_window
      = (Raise closed_file, self1, fs1).
Proof.
  intros Hdir.
  set (fn := STCSVBuffer._buffer_filename self) in *.
  set (h := STCSVBuffer._buffer_handle self).
  (* the state after the first close *)
  assert (Hfirst : exists h1 fs1,
    STCSVBuffer.close self fs = (None, STCSVBuffer.set_handle self h1, fs1) /\
    h_closed h1 = true /\ fs_dirs fs1 = fs_dirs fs /\ fs_files fs1 !! fn = None /\
    h_close h1 fn fs1 = (h1, fs1)).
  { unfold STCSVBuffer.close. fold fn h. unfold h_close.
    destruct (h_closed h) eqn:Hc.
    - (* already closed *)
      unfold path_exists, fs_remove. rewrite (bool_decide_eq_false_2 _ Hdir). simpl.
      destruct (fs_files fs !! fn) as [rows|] eqn:Hf.
      + rewrite bool_decide_eq_true_2 by eauto.
        exists h, (FS (fs_dirs fs) (delete fn (fs_files fs))).
        rewrite Hc. repeat split. simpl. apply lookup_delete_eq.
      + rewrite bool_decide_eq_false_2 by (intros [? ?]; congruence).
        exists h, fs. rewrite Hc. done.
    - unfold path_exists, fs_remove. simpl fs_dirs.
      rewrite (bool_decide_eq_false_2 _ Hdir). simpl.
      destruct (alter (fun old => old ++ h_pending h) fn (fs_files fs) !! fn)
        as [rows|] eqn:Hf.
      + rewrite bool_decide_eq_true_2 by eauto.
        eexists (Handle true []), _. repeat split. simpl. apply lookup_delete_eq.
      + rewrite bool_decide_eq_false_2 by (intros [? ?]; congruence).
        eexists (Handle true []), _. repeat split. done. }
  destruct Hfirst as (h1 & fs1 & Hclose & Hc1 & Hd1 & Hnone & Hh1).
  set (self1 := STCSVBuffer.set_handle self h1).
  assert (Hsecond : STCSVBuffer.close self1 fs1 = (None, self1, fs1)).
  { unfold STCSVBuffer.close. subst self1.
    change (STCSVBuffer._buffer_handle (STCSVBuffer.set_handle self h1)) with h1.
    change (STCSVBuffer._buffer_filename (STCSVBuffer.set_handle self h1)) with fn.
    rewrite Hh1. unfold path_exists. rewrite Hd1.
    rewrite (bool_decide_eq_false_2 _ Hdir), Hnone.
    rewrite bool_decide_eq_false_2 by (intros [? ?]; congruence). done. }
  assert (Hflush : STCSVBuffer.flush self1 fs1 = Raise closed_file).
  { unfold STCSVBuffer.flush, h_flush. subst self1.
    change (STCSVBuffer._buffer_handle (STCSVBuffer.set_handle self h1)) with h1.
    by rewrite Hc1. }
  exists self1, fs1. repeat split; try done.
  - unfold STCSVBuffer.spikes. by rewrite Hflush.
  - unfold STMPIBuffer.close. simpl. by rewrite Hclose.
  - unfold STMPIBuffer.close. simpl. by rewrite Hsecond.
  - unfold STMPIBuffer.spikes, STMPIBuffer.flush. simpl. by rewrite Hflush.
  - unfold STCSVBuffer.get_times, STCSVBuffer.spikes. by rewrite Hflush.
Qed.

(** The state [csv_open] is the one the code reaches when a file buffer is
    started in the working directory and records one spike. *)
Lemma csv_open_reached :
  ('(b, fs) ← STCSVBuffer.init "NA" None None None cwd;
   b ← STCSVBuffer.add_spike "NA" b 3 1.5%Q (Some "A");
   Ok (b, fs)) = Ok (csv_open, csv_open_fs).
Proof. vm_compute. reflexivity. Qed.

(** An instance: the buffer is closed twice with a spike still pending, then
    read. *)
Lemma close_twice_then_read_witness :
  exists self1 fs1,
    STCSVBuffer.close csv_open csv_open_fs = (None, self1, fs1) /\
    STCSVBuffer.close self1 fs1 = (None, self1, fs1) /\
    STCSVBuffer.spikes self1 fs1 None None None none
      = (Run [] (Some (ValueError "I/O operation on closed file.")), self1, fs1) /\
    STCSVBuffer.n_spikes self1 (Some "A") = STCSVBuffer.n_spikes csv_open (Some "A").
Proof.
  destruct (close_twice_then_read csv_open csv_open_fs 0 1 1 None None None none
              (Some "A") 3)
    as (s1 & f1 & H1 & H2 & _ & H3 & _ & _ & _ & H4 & _).
  - simpl. intros H. apply elem_of_singleton in H. discriminate H.
  - exists s1, f1. auto.
Defined.

(** ** The heap operations keep the heap order *)







Section heap_correct.
Context {A : Type} (lt : A -> A -> result bool) (le : A -> A -> Prop).
Hypothesis le_refl : forall x, le x x.
Hypothesis le_trans : forall x y z, le x y -> le y z -> le x z.








End heap_correct.

(** ** Comparing heap items *)













(** ** The merge loop *)



(** ** Sorting a file *)

Section sort_by_correct.
Context {A : Type} (le : A -> A -> bool) (R : A -> A -> Prop).
Hypothesis R_trans : forall x y z, R x y -> R y z -> R x z.
Hypothesis le_R : forall x y, if le x y then R x y else R y x.

Lemma insert_by_perm x (l : list A) : insert_by le x l ≡ₚ x :: l.
Proof.
  induction l as [|y l IH]; simpl; [done|].
  destruct (le x y); [done|]. by rewrite IH, Permutation_swap.
Qed.

Lemma insert_by_sorted x (l : list A) :
  StronglySorted R l -> StronglySorted R (insert_by le x l).
Proof.
  induction 1 as [|y l Hs IH Hall]; simpl.
  - repeat constructor.
  - pose proof (le_R x y) as Hxy. destruct (le x y).
    + constructor; [by constructor|]. constructor; [done|].
      eapply Forall_impl; [exact Hall|]. intros z Hz. by eapply R_trans.
    + constructor; [done|]. rewrite insert_by_perm. by constructor.
Qed.

Lemma sort_by_perm (l : list A) : sort_by le l ≡ₚ l.
Proof.
  induction l as [|x l IH]; [done|].
  change (sort_by le (x :: l)) with (insert_by le x (sort_by le l)).
  by rewrite insert_by_perm, IH.
Qed.

Lemma sort_by_sorted (l : list A) : StronglySorted R (sort_by le l).
Proof.
  induction l as [|x l IH]; [constructor|].
  change (sort_by le (x :: l)) with (insert_by le x (sort_by le l)).
  by apply insert_by_sorted.
Qed.

End sort_by_correct.









(** ** Retrieval in order of time from the memory buffer *)

Lemma spikes_loop_filter (self : STMemoryBuffer.t) (rows : list spike)
    (filter : string -> Q -> bool) (idx : list nat) :
  STMemoryBuffer._timestamps self = (fun s : spike => s.1.1) <$> rows ->
  STMemoryBuffer._populations self = (fun s : spike => s.1.2) <$> rows ->
  STMemoryBuffer._node_ids self = (fun s : spike => s.2) <$> rows ->
  Forall (fun i => i < length rows) idx ->
  STMemoryBuffer.spikes_loop self filter idx
  = Run (base.filter (spike_keeps filter) (omap (fun i => rows !! i) idx)) None.
Proof.
  intros Ht Hp Hn. induction 1 as [|i idx Hi _ IH]; [done|].
  destruct (lookup_lt_is_Some_2 rows i Hi) as [[[t p] n] Hs].
  cbn [STMemoryBuffer.spikes_loop omap list_omap].
  rewrite Ht, Hp, Hn, !list_lookup_fmap, Hs. simpl.
  rewrite filter_cons.
  destruct (decide (spike_keeps filter (t, p, n))) as [Hk|Hk];
    unfold spike_keeps in Hk; simpl in Hk.
  - by rewrite Hk, IH.
  - destruct (filter p t); [done|]. by rewrite IH.
Qed.

Lemma zip_seq_lookup {A} (l : list A) i v :
  (i, v) ∈ zip (seq 0 (length l)) l -> l !! i = Some v.
Proof.
  intros [k Hk]%list_elem_of_lookup.
  apply lookup_zip_Some in Hk as [Hseq Hl].
  apply lookup_seq in Hseq as [-> _]. done.
Qed.

Lemma omap_sorted (rows : list spike) (ps : list (nat * Q)) :
  StronglySorted (fun a b => (a.2 <= b.2)%Q) ps ->
  (forall i v, (i, v) ∈ ps -> exists s, rows !! i = Some s /\ s.1.1 = v) ->
  StronglySorted spike_by_ts (omap (fun i => rows !! i) (fst <$> ps)).
Proof.
  induction 1 as [|[i v] ps Hs IH Hall]; intros Hin; [constructor|].
  destruct (Hin i v) as (s & Hs' & Hv); [by left|].
  cbn [fmap list_fmap omap list_omap]. simpl. rewrite Hs'.
  constructor.
  - apply IH. intros j w Hj. apply Hin. by right.
  - apply Forall_forall. intros s' (j & Hj & Hs'')%list_elem_of_omap.
    apply list_elem_of_fmap in Hj as ([j' w] & -> & Hjw). simpl in Hs''.
    destruct (Hin j' w) as (s2 & Hs2 & Hw); [by right|].
    rewrite Forall_forall in Hall. specialize (Hall _ Hjw). simpl in Hall.
    unfold spike_by_ts. rewrite Hs'' in Hs2. injection Hs2 as <-.
    by rewrite Hv, Hw.
Qed.

(** X4. Read back in order of time, the memory buffer goes through all the
    recorded triples with non-decreasing timestamps and yields those that
    pass the filter; the run then ends in a [RuntimeError]. *)
Lemma memory_spikes_by_time pop_na dp units (calls : list call)
    (node_ids : option (list Z)) (populations : option pops_arg)
    (time_window : option (Q * Q)) :
  exists ordered,
    STMemoryBuffer.spikes (mem_record (STMemoryBuffer.init pop_na dp units) calls)
      node_ids populations time_window by_time
    = Run (base.filter (spike_keeps (_create_filter populations time_window)) ordered)
        (Some RuntimeError) /\
    ordered ≡ₚ resolved (str_or dp pop_na) <$> calls /\
    StronglySorted spike_by_ts ordered.
Proof.
  destruct (mem_record_fields pop_na dp units calls) as (Ht & Hp & Hn).
  cbv zeta in *. set (b := mem_record _ calls) in *.
  set (rows := resolved (str_or dp pop_na) <$> calls).
  assert (Ht' : STMemoryBuffer._timestamps b = (fun s : spike => s.1.1) <$> rows).
  { subst rows. by rewrite <- list_fmap_compose. }
  assert (Hp' : STMemoryBuffer._populations b = (fun s : spike => s.1.2) <$> rows).
  { subst rows. by rewrite <- list_fmap_compose. }
  assert (Hn' : STMemoryBuffer._node_ids b = (fun s : spike => s.2) <$> rows).
  { subst rows. by rewrite <- list_fmap_compose. }
  set (tsl := STMemoryBuffer._timestamps b) in *.
  set (le2 := fun a b : nat * Q => Qle_bool a.2 b.2).
  set (ps := sort_by le2 (zip (seq 0 (length tsl)) tsl)).
  assert (Hps : ps ≡ₚ zip (seq 0 (length tsl)) tsl) by apply sort_by_perm.
  assert (Hlen : length tsl = length rows).
  { by rewrite Ht', length_fmap. }
  assert (Hlook : forall i v, (i, v) ∈ ps -> exists s, rows !! i = Some s /\ s.1.1 = v).
  { intros i v Hiv. rewrite Hps in Hiv. apply zip_seq_lookup in Hiv.
    rewrite Ht', list_lookup_fmap in Hiv.
    destruct (rows !! i) as [s|]; [|done]. simpl in Hiv. exists s.
    split; [done|congruence]. }
  exists (omap (fun i => rows !! i) (fst <$> ps)). split; [|split].
  - unfold STMemoryBuffer.spikes. rewrite decide_True by done.
    change (argsort Qle_bool (STMemoryBuffer._timestamps b)) with (fst <$> ps).
    rewrite (spikes_loop_filter b rows); try done.
    + unfold g_seq, g_raise. simpl. by rewrite app_nil_r.
    + apply Forall_forall. intros i ([i' v] & -> & Hiv)%list_elem_of_fmap.
      destruct (Hlook i' v Hiv) as (s & Hs & _). by eapply lookup_lt_Some.
  - rewrite Hps, fst_zip by (rewrite length_seq; lia).
    rewrite Hlen. by rewrite omap_lookup_seq.
  - apply omap_sorted; [|done].
    apply (sort_by_sorted le2 (fun a b => (a.2 <= b.2)%Q)).
    + intros x y z. apply Qle_trans.
    + intros x y. unfold le2. destruct (Qle_bool x.2 y.2) eqn:H.
      * by apply Qle_bool_iff.
      * apply Qlt_le_weak, Qnot_le_lt. by rewrite <- Qle_bool_iff, H.
Qed.

(** ** Retrieval in order from the file buffer *)

Lemma scan_rows_filter (filter : string -> Q -> bool) (rows : list row) :
  STCSVBuffer.scan_rows filter rows
  = Run (row_spike <$> base.filter (row_keeps filter) rows) None.
Proof.
  induction rows as [|r rows IH]; [done|].
  cbn [STCSVBuffer.scan_rows]. rewrite filter_cons.
  destruct (decide (row_keeps filter r)) as [Hk|Hk]; unfold row_keeps in Hk.
  - by rewrite Hk, IH.
  - destruct (filter (pop r) (ts r)); [done|]. by rewrite IH.
Qed.






(** ** Filling the heap *)








(** ** The merge of sorted files that share no line *)








(** ** Runs of the distributed buffer *)

(** C1. When rank 0 and rank 1 both hold the line [1.0 A 0], the merge by
    time yields nothing and ends in a [TypeError]: the two heap items tie on
    key and line, and the comparison reaches the reader objects. *)
Theorem merge_equal_lines_TypeError :
  two_rank_read [Row 1.0 "A" 0] [Row 1.0 "A" 0] None by_time
  = Ok (Run [] (Some TypeError)).
Proof. vm_compute. reflexivity. Qed.

(** C6. With [time_window = (0, 10)], the merge by time drops the spike of
    node 100 at 5.0 ms and keeps the spike of node 3 at 50.0 ms: the window
    is applied to the node id. *)
Theorem merge_window_tests_node_id :
  one_rank_read [Row 5.0 "A" 100; Row 50.0 "A" 3] (Some (0%Q, 10%Q)) by_time
  = Ok (Run [(50.0%Q, "A", 3%Z)] None).
Proof. vm_compute. reflexivity. Qed.

(** Scenario A of the specification: the two spikes come back in order of
    time (and the run of the memory buffer then ends in the [RuntimeError]). *)
Example scenario_a_by_time :
  yielded (STMemoryBuffer.spikes mem_scenario_a None None None by_time)
  = [(0.5%Q, "B", 7%Z); (1.5%Q, "A", 3%Z)].
Proof. vm_compute. reflexivity. Qed.

(** Scenario B of the specification: rank 0 holds the spikes at 1.0 and 3.0,
    rank 1 the spike at 2.0; the merge interleaves them and ends normally. *)
Example scenario_b_merge :
  two_rank_read [Row 1.0 "A" 0; Row 3.0 "A" 0] [Row 2.0 "A" 1] None by_time
  = Ok (Run [(1.0%Q, "A", 0%Z); (2.0%Q, "A", 1%Z); (3.0%Q, "A", 0%Z)] None).
Proof. vm_compute. reflexivity. Qed.

(** By node id the distributed buffer merges on the population column
    ([sort_col = 1]): node 2 under ["A"] comes before node 1 under ["B"]. *)
Example merge_by_id_orders_by_population :
  two_rank_read [Row 1.0 "B" 1] [Row 2.0 "A" 2] None by_id
  = Ok (Run [(2.0%Q, "A", 2%Z); (1.0%Q, "B", 1%Z)] None).
Proof. vm_compute. reflexivity. Qed.

(** The file buffer records a spike without a population under [pop_na],
    not under its default population. *)
Example csv_add_spike_ignores_default :
  (b ← csv_default_spike;
   Ok (STCSVBuffer.n_spikes b (Some "A"), STCSVBuffer.n_spikes b (Some "NA"),
       STCSVBuffer.n_spikes b None))
  = Ok (0, 1, 0).
Proof. vm_compute. reflexivity. Qed.

(** * Further properties *)

(** ** Reading times from the memory buffer *)

Lemma zip_with_fmap_same {A B C D} (f : B -> C -> D) (g : A -> B) (h : A -> C)
    (l : list A) :
  zip_with f (g <$> l) (h <$> l) = (fun x => f (g x) (h x)) <$> l.
Proof. induction l as [|x l IH]; [done|]. simpl. f_equal. exact IH. Qed.

Lemma np_and_fmap {A} (g h : A -> bool) (l : list A) :
  np_and (g <$> l) (h <$> l) = Ok ((fun x => g x && h x) <$> l).
Proof.
  unfold np_and. rewrite decide_True by (by rewrite !length_fmap).
  f_equal. apply zip_with_fmap_same.
Qed.

Lemma np_iand_fmap {A} (g h : A -> bool) (l : list A) :
  np_iand (g <$> l) (h <$> l) = Ok ((fun x => g x && h x) <$> l).
Proof.
  unfold np_iand. rewrite decide_True by (by rewrite !length_fmap).
  f_equal. apply zip_with_fmap_same.
Qed.

Lemma filter_zip_fmap {A B} (t : A -> B) (m : A -> bool) (l : list A) :
  base.filter (fun bt : bool * B => bt.1 = true) (zip (m <$> l) (t <$> l))
  = (fun x => (m x, t x)) <$> base.filter (fun x => m x = true) l.
Proof.
  induction l as [|x l IH]; [done|].
  change (zip (m <$> x :: l) (t <$> x :: l))
    with ((m x, t x) :: zip (m <$> l) (t <$> l)).
  rewrite !filter_cons, IH. simpl.
  destruct (decide (m x = true)); done.
Qed.

Lemma np_take_fmap {A B} (t : A -> B) (m : A -> bool) (l : list A) :
  np_take (t <$> l) (m <$> l)
  = Ok (t <$> base.filter (fun x => m x = true) l).
Proof.
  unfold np_take. rewrite decide_True by (by rewrite !length_fmap).
  f_equal. rewrite filter_zip_fmap. by rewrite <- list_fmap_compose.
Qed.

(** X5. [get_times] of the memory buffer returns, in the order of the calls,
    the timestamps recorded for the node under the population (the default
    population of the buffer when none is given) and inside the window. *)
Theorem memory_get_times pop_na dp units (calls : list call) (node_id : Z)
    (population : option string) (time_window : option (Q * Q)) :
  STMemoryBuffer.get_times
    (mem_record (STMemoryBuffer.init pop_na dp units) calls)
    node_id population time_window
  = Ok ((fun c : call => c.1.2) <$>
        base.filter
          (fun c => call_selected (str_or dp pop_na) node_id population
                      time_window c = true)
          calls).
Proof.
  destruct (mem_record_fields pop_na dp units calls) as (Ht & Hp & Hn).
  cbv zeta in *. unfold STMemoryBuffer.get_times.
  rewrite Ht, Hp, Hn, mem_record_default. simpl STMemoryBuffer._default_population.
  set (d := str_or dp pop_na).
  rewrite <- !list_fmap_compose, np_and_fmap, bind_Ok.
  destruct time_window as [tw|].
  - rewrite np_and_fmap, bind_Ok. cbv beta.
    rewrite <- !list_fmap_compose, np_iand_fmap, bind_Ok.
    rewrite (np_take_fmap (fun c : call => c.1.2)). reflexivity.
  - rewrite bind_Ok.
    rewrite (np_take_fmap (fun c : call => c.1.2)). do 2 f_equal.
    apply list_filter_iff. intros c. unfold call_selected. simpl.
    by rewrite andb_true_r.
Qed.

(** ** The time range of the memory buffer *)

Lemma Qmin_b_spec (x y : Q) :
  (Qmin_b x y = x \/ Qmin_b x y = y) /\ (Qmin_b x y <= x)%Q /\ (Qmin_b x y <= y)%Q.
Proof.
  unfold Qmin_b. destruct (Qle_bool x y) eqn:H.
  - apply Qle_bool_iff in H. split; [by left|]. split; [apply Qle_refl|done].
  - split; [by right|]. split; [|apply Qle_refl].
    apply Qlt_le_weak, Qnot_le_lt. by rewrite <- Qle_bool_iff, H.
Qed.

Lemma Qmax_b_spec (x y : Q) :
  (Qmax_b x y = x \/ Qmax_b x y = y) /\ (x <= Qmax_b x y)%Q /\ (y <= Qmax_b x y)%Q.
Proof.
  unfold Qmax_b. destruct (Qle_bool x y) eqn:H.
  - apply Qle_bool_iff in H. split; [by right|]. split; [done|apply Qle_refl].
  - split; [by left|]. split; [apply Qle_refl|].
    apply Qlt_le_weak, Qnot_le_lt. by rewrite <- Qle_bool_iff, H.
Qed.

Lemma foldl_Qmin_b (x : Q) (l : list Q) :
  foldl Qmin_b x l ∈ x :: l /\ forall t, t ∈ x :: l -> (foldl Qmin_b x l <= t)%Q.
Proof.
  revert x. induction l as [|y l IH]; intros x; simpl.
  - split; [by left|]. intros t ->%list_elem_of_singleton. apply Qle_refl.
  - destruct (IH (Qmin_b x y)) as [Hin Hle].
    destruct (Qmin_b_spec x y) as (Hxy & Hx & Hy). split.
    + apply elem_of_cons in Hin as [->|Hin].
      * destruct Hxy as [-> | ->]; [by left|right; by left].
      * right. by right.
    + intros t [->|[->|Ht]%elem_of_cons]%elem_of_cons.
      * eapply Qle_trans; [apply Hle; by left|done].
      * eapply Qle_trans; [apply Hle; by left|done].
      * apply Hle. by right.
Qed.

Lemma foldl_Qmax_b (x : Q) (l : list Q) :
  foldl Qmax_b x l ∈ x :: l /\ forall t, t ∈ x :: l -> (t <= foldl Qmax_b x l)%Q.
Proof.
  revert x. induction l as [|y l IH]; intros x; simpl.
  - split; [by left|]. intros t ->%list_elem_of_singleton. apply Qle_refl.
  - destruct (IH (Qmax_b x y)) as [Hin Hle].
    destruct (Qmax_b_spec x y) as (Hxy & Hx & Hy). split.
    + apply elem_of_cons in Hin as [->|Hin].
      * destruct Hxy as [-> | ->]; [by left|right; by left].
      * right. by right.
    + intros t [->|[->|Ht]%elem_of_cons]%elem_of_cons.
      * eapply Qle_trans; [done|apply Hle; by left].
      * eapply Qle_trans; [done|apply Hle; by left].
      * apply Hle. by right.
Qed.

(** X6. On a memory buffer that holds at least one spike, [time_range]
    returns two recorded timestamps that bound all the recorded timestamps,
    of every population. *)
Theorem memory_time_range pop_na dp units (c : call) (calls : list call) :
  let recorded := (fun c : call => c.1.2) <$> (c :: calls) in
  exists lo hi,
    STMemoryBuffer.time_range
      (mem_record (STMemoryBuffer.init pop_na dp units) (c :: calls))
    = Ok (lo, hi) /\
    lo ∈ recorded /\ hi ∈ recorded /\
    forall t, t ∈ recorded -> (lo <= t)%Q /\ (t <= hi)%Q.
Proof.
  destruct (mem_record_fields pop_na dp units (c :: calls)) as (Ht & _ & _).
  cbv zeta in *. unfold STMemoryBuffer.time_range. rewrite Ht.
  change ((fun c0 : call => (resolved (str_or dp pop_na) c0).1.1) <$> c :: calls)
    with ((fun c : call => c.1.2) <$> c :: calls).
  rewrite fmap_cons. set (l := (fun c : call => c.1.2) <$> calls).
  cbn [np_min np_max]. rewrite !bind_Ok.
  destruct (foldl_Qmin_b c.1.2 l) as [Hin1 Hle1].
  destruct (foldl_Qmax_b c.1.2 l) as [Hin2 Hle2].
  eexists _, _. split; [done|]. split; [done|]. split; [done|].
  intros t Ht'. split; [by apply Hle1|by apply Hle2].
Qed.

(** ** The counts of the memory buffer *)

Lemma total_count_insert (m : gmap (option string) nat) k n :
  total_count (<[ k := n ]> m) + default 0 (m !! k) = total_count m + n.
Proof.
  unfold total_count.
  assert (Hfold : forall (m' : gmap (option string) nat) j x, m' !! j = None ->
    map_fold (fun (_ : option string) n acc => n + acc) 0 (<[ j := x ]> m')
    = x + map_fold (fun (_ : option string) n acc => n + acc) 0 m').
  { intros m' j x Hj. rewrite (map_fold_insert_L (fun (_ : option string) n acc => n + acc) 0 j x m'); [done| |done]. intros; lia. }
  destruct (m !! k) as [old|] eqn:Hk; simpl.
  - rewrite <- (insert_delete_eq m k n).
    rewrite Hfold by apply lookup_delete_eq.
    rewrite <- (insert_delete_id m k old Hk) at 2.
    rewrite Hfold by apply lookup_delete_eq. lia.
  - rewrite Hfold by done. lia.
Qed.

(** X7. The memory buffer keeps its three sequences and its counts in step:
    after any calls each sequence holds one entry per call, and the counts of
    all populations add up to the number of calls. *)
Theorem memory_counts_add_up pop_na dp units (calls : list call) :
  let b := mem_record (STMemoryBuffer.init pop_na dp units) calls in
  length (STMemoryBuffer._node_ids b) = length calls /\
  length (STMemoryBuffer._timestamps b) = length calls /\
  length (STMemoryBuffer._populations b) = length calls /\
  total_count (STMemoryBuffer._pop_counts b) = length calls.
Proof.
  destruct (mem_record_fields pop_na dp units calls) as (Ht & Hp & Hn).
  cbv zeta in *. rewrite Ht, Hp, Hn, !length_fmap.
  split; [done|]. split; [done|]. split; [done|]. clear Ht Hp Hn.
  induction calls as [|c calls IH] using rev_ind.
  - simpl. unfold total_count. by rewrite map_fold_singleton.
  - rewrite mem_record_snoc, length_app. simpl length.
    unfold STMemoryBuffer.add_spike at 1. simpl STMemoryBuffer._pop_counts.
    match goal with |- total_count (<[ ?k := ?n ]> ?m) = _ =>
      pose proof (total_count_insert m k n) as Hins end.
    rewrite IH in Hins. lia.
Qed.

(** ** Populations and nodes of the memory buffer *)

(** X8. The populations of a memory buffer are the default population,
    listed from the start whether or not a spike was recorded under it, and
    the populations the calls recorded under; none is listed twice. *)
Theorem memory_populations pop_na dp units (calls : list call) (p : option string) :
  let b := mem_record (STMemoryBuffer.init pop_na dp units) calls in
  let d := str_or dp pop_na in
  NoDup (STMemoryBuffer.populations b) /\
  (p ∈ STMemoryBuffer.populations b <->
   p = Some d \/ exists c, c ∈ calls /\ p = Some (str_or c.2 d)).
Proof.
  cbv zeta. unfold STMemoryBuffer.populations. split; [apply NoDup_elements|].
  rewrite elem_of_elements.
  induction calls as [|c calls IH] using rev_ind.
  - simpl. rewrite dom_singleton_L, elem_of_singleton. split; [by left|].
    intros [->|(c & Hc & _)]; [done|]. by apply elem_of_nil in Hc.
  - rewrite mem_record_snoc. unfold STMemoryBuffer.add_spike at 1.
    simpl STMemoryBuffer._pop_counts. rewrite mem_record_default.
    simpl STMemoryBuffer._default_population.
    rewrite dom_insert_L, elem_of_union, elem_of_singleton, IH. split.
    + intros [->|[->|(c' & Hc' & ->)]].
      * right. exists c. split; [|done]. apply elem_of_app. right. by left.
      * by left.
      * right. exists c'. split; [|done]. apply elem_of_app. by left.
    + intros [->|(c' & [Hc'|Hc']%elem_of_app & ->)].
      * right. by left.
      * right. right. by exists c'.
      * apply list_elem_of_singleton in Hc' as ->. by left.
Qed.

(** X9. [nodes] lists every recorded node id once, whatever populations are
    asked for: the argument does not restrict the result. *)
Theorem memory_nodes pop_na dp units (calls : list call)
    (populations : option pops_arg) (n : Z) :
  let b := mem_record (STMemoryBuffer.init pop_na dp units) calls in
  NoDup (STMemoryBuffer.nodes b populations) /\
  (n ∈ STMemoryBuffer.nodes b populations <-> exists c, c ∈ calls /\ c.1.1 = n).
Proof.
  destruct (mem_record_fields pop_na dp units calls) as (_ & _ & Hn).
  cbv zeta in *. unfold STMemoryBuffer.nodes. split; [apply NoDup_elements|].
  rewrite elem_of_elements, elem_of_list_to_set, Hn, list_elem_of_fmap.
  split; intros (c & H1 & H2); exists c; simpl in *; done.
Qed.

(** ** Recording several spikes at once *)

(** A buffer whose three sequences are the columns of [rows] yields [rows]
    when read without order and without filters. *)
Lemma memory_spikes_of_rows (b : STMemoryBuffer.t) (rows : list spike) :
  STMemoryBuffer._timestamps b = (fun s : spike => s.1.1) <$> rows ->
  STMemoryBuffer._populations b = (fun s : spike => s.1.2) <$> rows ->
  STMemoryBuffer._node_ids b = (fun s : spike => s.2) <$> rows ->
  STMemoryBuffer.spikes b None None None none = Run rows (Some RuntimeError).
Proof.
  intros Ht Hp Hn. unfold STMemoryBuffer.spikes. simpl.
  rewrite (spikes_loop_all b rows); try done.
  - rewrite Ht, length_fmap, omap_lookup_seq.
    unfold g_seq, g_raise. simpl. by rewrite app_nil_r.
  - rewrite Ht, length_fmap. apply Forall_forall. intros i Hi%elem_of_seq. lia.
Qed.

Lemma memory_add_spikes_record (b : STMemoryBuffer.t) (ids : list Z)
    (timestamps : list Q) (population : option string) :
  foldl (fun b nt => STMemoryBuffer.add_spike b (fst nt) (snd nt) population) b
    (zip ids timestamps)
  = mem_record b (zip_with (fun n t => (n, t, population)) ids timestamps).
Proof.
  unfold mem_record. revert b timestamps.
  induction ids as [|n ids IH]; intros b [|t ts]; try done. simpl. apply IH.
Qed.

(** X10. [add_spikes] on a memory buffer.  With a single node id, every
    timestamp is recorded under that id.  With a sequence of node ids, ids
    and timestamps are paired in order and what one sequence has more than
    the other is dropped without an error.  In both cases the new spikes
    follow those already recorded, under the population given or else the
    default one. *)
Theorem memory_add_spikes_round_trip pop_na dp units (calls : list call)
    (n : Z) (ids : list Z) (timestamps : list Q) (population : option string) :
  let b := mem_record (STMemoryBuffer.init pop_na dp units) calls in
  let d := str_or dp pop_na in
  STMemoryBuffer.spikes (STMemoryBuffer.add_spikes b (IdScalar n) timestamps population)
    None None None none
  = Run ((resolved d <$> calls) ++ ((fun t => (t, str_or population d, n)) <$> timestamps))
        (Some RuntimeError) /\
  STMemoryBuffer.spikes (STMemoryBuffer.add_spikes b (IdList ids) timestamps population)
    None None None none
  = Run ((resolved d <$> calls)
           ++ zip_with (fun i t => (t, str_or population d, i)) ids timestamps)
        (Some RuntimeError).
Proof.
  cbv zeta. unfold STMemoryBuffer.add_spikes.
  assert (Hgen : forall l : list Z,
    STMemoryBuffer.spikes
      (foldl (fun b nt => STMemoryBuffer.add_spike b (fst nt) (snd nt) population)
         (mem_record (STMemoryBuffer.init pop_na dp units) calls) (zip l timestamps))
      None None None none
    = Run ((resolved (str_or dp pop_na) <$> calls)
             ++ zip_with (fun i t => (t, str_or population (str_or dp pop_na), i)) l timestamps)
          (Some RuntimeError)).
  { intros l. rewrite memory_add_spikes_record.
    replace (mem_record (mem_record (STMemoryBuffer.init pop_na dp units) calls)
               (zip_with (fun n t => (n, t, population)) l timestamps))
      with (mem_record (STMemoryBuffer.init pop_na dp units)
              (calls ++ zip_with (fun n t => (n, t, population)) l timestamps))
      by (unfold mem_record; apply foldl_app).
    destruct (mem_record_fields pop_na dp units
      (calls ++ zip_with (fun n t => (n, t, population)) l timestamps)) as (Ht & Hp & Hn).
    cbv zeta in *.
    assert (Hrows : resolved (str_or dp pop_na) <$>
        (calls ++ zip_with (fun n t => (n, t, population)) l timestamps)
      = (resolved (str_or dp pop_na) <$> calls)
          ++ zip_with (fun i t => (t, str_or population (str_or dp pop_na), i)) l timestamps).
    { rewrite fmap_app. f_equal. clear. revert timestamps.
      induction l as [|i l IH]; intros [|t ts]; try done. simpl. by rewrite IH. }
    rewrite <- Hrows. apply memory_spikes_of_rows.
    - by rewrite Ht, <- list_fmap_compose.
    - by rewrite Hp, <- list_fmap_compose.
    - by rewrite Hn, <- list_fmap_compose. }
  split; [|apply Hgen].
  rewrite Hgen. do 2 f_equal. clear.
  induction timestamps as [|t ts IH]; [done|]. simpl. by rewrite IH.
Qed.

(** ** Recording into the file buffer *)

Lemma csv_record_snoc pop_na self calls c :
  csv_record pop_na self (calls ++ [c])
  = (b ← csv_record pop_na self calls; STCSVBuffer.add_spike pop_na b c.1.1 c.1.2 c.2).
Proof. unfold csv_record. by rewrite foldl_app. Qed.

(** What a sequence of calls leaves in an open file buffer. *)
Lemma csv_record_open pop_na (b : STCSVBuffer.t) (calls : list call) :
  h_closed (STCSVBuffer._buffer_handle b) = false ->
  exists b',
    csv_record pop_na b calls = Ok b' /\
    STCSVBuffer._buffer_handle b'
      = Handle false (h_pending (STCSVBuffer._buffer_handle b) ++ (call_row pop_na <$> calls)) /\
    STCSVBuffer._buffer_filename b' = STCSVBuffer._buffer_filename b /\
    STCSVBuffer._nspikes b' = STCSVBuffer._nspikes b + length calls /\
    (forall p, STCSVBuffer.n_spikes b' (Some p)
       = STCSVBuffer.n_spikes b (Some p)
         + length (base.filter (fun c : call => str_or c.2 pop_na = p) calls)) /\
    STCSVBuffer.n_spikes b' None = STCSVBuffer.n_spikes b None /\
    total_count (STCSVBuffer._pop_counts b')
      = total_count (STCSVBuffer._pop_counts b) + length calls /\
    dom (STCSVBuffer._pop_counts b')
      = dom (STCSVBuffer._pop_counts b)
          ∪ list_to_set ((fun c : call => Some (str_or c.2 pop_na)) <$> calls).
Proof.
  intros Hopen. induction calls as [|c calls IH] using rev_ind.
  - exists b. simpl. rewrite app_nil_r, !Nat.add_0_r.
    destruct (STCSVBuffer._buffer_handle b) as [cl pe]; simpl in *; subst cl.
    repeat split; try done; try lia. by rewrite union_empty_r_L.
  - destruct IH as (b1 & Hrec & Hh & Hfn & Hn & Hc & Hnone & Htot & Hdom).
    rewrite csv_record_snoc, Hrec, bind_Ok.
    unfold STCSVBuffer.add_spike, h_write. rewrite Hh. cbn [h_closed h_pending].
    rewrite bind_Ok. eexists. split; [reflexivity|].
    cbn [STCSVBuffer._buffer_handle STCSVBuffer._buffer_filename
         STCSVBuffer._nspikes STCSVBuffer._pop_counts].
    rewrite fmap_app, length_app, app_assoc. simpl length.
    split; [done|]. split; [done|]. split; [lia|].
    unfold STCSVBuffer.n_spikes in *.
    cbn [STCSVBuffer._pop_counts]. split; [|split; [|split]].
    + intros p. rewrite filter_app, length_app, filter_cons, filter_nil.
      destruct (decide (str_or c.2 pop_na = p)) as [->|Hne].
      * rewrite lookup_insert_eq. simpl. rewrite Hc. lia.
      * rewrite lookup_insert_ne by congruence. simpl. rewrite Hc. lia.
    + rewrite lookup_insert_ne by done. exact Hnone.
    + match goal with |- total_count (<[ ?k := ?n ]> ?m) = _ =>
        pose proof (total_count_insert m k n) as Hins end.
      rewrite Htot in Hins. lia.
    + rewrite dom_insert_L, Hdom, fmap_app, list_to_set_app_L. simpl.
      rewrite union_empty_r_L.
      rewrite (union_comm_L {[ Some (str_or c.2 pop_na) ]}).
      by rewrite union_assoc_L.
Qed.

(** What [init] returns when it succeeds. *)
Lemma csv_init_Ok pop_na cache_dir dp units fs b fs1 :
  STCSVBuffer.init pop_na cache_dir dp units fs = Ok (b, fs1) ->
  STCSVBuffer._buffer_handle b = Handle false [] /\
  STCSVBuffer._pop_counts b = {[ Some (str_or dp pop_na) := 0 ]} /\
  STCSVBuffer._nspikes b = 0 /\
  fs_files fs1 = <[ STCSVBuffer._buffer_filename b := [] ]> (fs_files fs).
Proof.
  unfold STCSVBuffer.init, STCSVBuffer.init_with, STCSVBuffer._cache_fname, fs_open_w.
  destruct (path_exists fs (str_or cache_dir ".")); [|done]. rewrite bind_Ok.
  destruct (bool_decide _); [done|]. rewrite bind_Ok. intros [= <- <-]. done.
Qed.



(** X12. The counts of the file buffer: after a buffer was created and
    recorded calls, [_nspikes] is the number of calls, the count of a named
    population is the number of calls recorded under it, an omitted
    population counting as [pop_na], the count without a population is 0,
    and the counts of all populations add up to the number of calls. *)
Theorem csv_counts pop_na cache_dir dp units fs b fs1 (calls : list call) (p : string) :
  STCSVBuffer.init pop_na cache_dir dp units fs = Ok (b, fs1) ->
  exists b1,
    csv_record pop_na b calls = Ok b1 /\
    STCSVBuffer._nspikes b1 = length calls /\
    STCSVBuffer.n_spikes b1 (Some p)
      = length (base.filter (fun c : call => str_or c.2 pop_na = p) calls) /\
    STCSVBuffer.n_spikes b1 None = 0 /\
    total_count (STCSVBuffer._pop_counts b1) = length calls.
Proof.
  intros Hinit. destruct (csv_init_Ok _ _ _ _ _ _ _ Hinit) as (Hh & Hc & Hn & _).
  destruct (csv_record_open pop_na b calls)
    as (b1 & Hrec & _ & _ & Hn1 & Hc1 & Hnone & Htot & _).
  { by rewrite Hh. }
  exists b1. split; [done|]. split; [lia|].
  rewrite Hc1, Hnone, Htot. unfold STCSVBuffer.n_spikes. rewrite Hc.
  unfold total_count. rewrite map_fold_singleton.
  rewrite (lookup_singleton_ne (Some (str_or dp pop_na)) None) by done.
  split; [|done].
  destruct (decide (str_or dp pop_na = p)) as [->|Hne].
  - by rewrite lookup_singleton_eq.
  - rewrite lookup_singleton_ne; [done|congruence].
Qed.

Lemma csv_counts_witness :
  exists b1,
    csv_record "NA" csv_fresh [(3%Z, 1.5%Q, Some "A"); (7%Z, 0.5%Q, None)] = Ok b1 /\
    STCSVBuffer._nspikes b1 = 2 /\
    STCSVBuffer.n_spikes b1 (Some "NA") = 1 /\
    STCSVBuffer.n_spikes b1 None = 0 /\
    total_count (STCSVBuffer._pop_counts b1) = 2.
Proof.
  apply (csv_counts "NA" None None None cwd csv_fresh csv_open_fs
           [(3%Z, 1.5%Q, Some "A"); (7%Z, 0.5%Q, None)] "NA").
  vm_compute. reflexivity.
Defined.

(** X13. The populations of a file buffer that was created and recorded
    calls are the default population of the buffer and the populations the
    calls were recorded under, where an omitted population is [pop_na] and
    not the default population. *)
Theorem csv_populations pop_na cache_dir dp units fs b fs1 (calls : list call)
    (p : option string) :
  STCSVBuffer.init pop_na cache_dir dp units fs = Ok (b, fs1) ->
  exists b1,
    csv_record pop_na b calls = Ok b1 /\
    NoDup (STCSVBuffer.populations b1) /\
    (p ∈ STCSVBuffer.populations b1 <->
     p = Some (str_or dp pop_na) \/ exists c, c ∈ calls /\ p = Some (str_or c.2 pop_na)).
Proof.
  intros Hinit. destruct (csv_init_Ok _ _ _ _ _ _ _ Hinit) as (Hh & Hc & _ & _).
  destruct (csv_record_open pop_na b calls) as (b1 & Hrec & _ & _ & _ & _ & _ & _ & Hdom).
  { by rewrite Hh. }
  exists b1. split; [done|]. unfold STCSVBuffer.populations.
  split; [apply NoDup_elements|].
  rewrite elem_of_elements, Hdom, Hc, dom_singleton_L, elem_of_union,
    elem_of_singleton, elem_of_list_to_set, list_elem_of_fmap.
  split; (intros [->|(c & H1 & H2)]; [by left|right; by exists c]).
Qed.

Lemma csv_populations_witness :
  exists b1,
    csv_record "NA" csv_fresh [(3%Z, 1.5%Q, Some "A"); (7%Z, 0.5%Q, None)] = Ok b1 /\
    NoDup (STCSVBuffer.populations b1) /\
    (Some "A" ∈ STCSVBuffer.populations b1 <->
     Some "A" = Some (str_or None "NA") \/
     exists c, c ∈ [(3%Z, 1.5%Q, Some "A"); (7%Z, 0.5%Q, None)] /\
               Some "A" = Some (str_or c.2 "NA")).
Proof.
  apply (csv_populations "NA" None None None cwd csv_fresh csv_open_fs
           [(3%Z, 1.5%Q, Some "A"); (7%Z, 0.5%Q, None)] (Some "A")).
  vm_compute. reflexivity.
Defined.

(** ** Reading more than once, and the readers built on [spikes] *)



(** The run of [spikes] never ends normally. *)
Lemma csv_spikes_finish self fs node_ids populations time_window sort_order :
  exists e, finish (STCSVBuffer.spikes self fs node_ids populations time_window
                      sort_order).1.1 = Some e.
Proof.
  unfold STCSVBuffer.spikes.
  destruct (STCSVBuffer.flush self fs) as [[self1 fs1]|e]; [|by eexists].
  destruct (STCSVBuffer._sort_buffer_file _ _ _) as [fs2|e]; [|by eexists].
  destruct (fs_read _ _) as [rows|e]; [|by eexists].
  rewrite scan_rows_filter. by eexists.
Qed.

(** X15. [get_times] of the file buffer never returns the times: it collects
    them from a run of [spikes], and that run always ends in an exception,
    which leaves [get_times]. *)
Theorem csv_get_times_raises (self : STCSVBuffer.t) (fs : filesystem) (node_id : Z)
    (population : option string) (time_window : option (Q * Q)) :
  exists e, (STCSVBuffer.get_times self fs node_id population time_window).1.1
            = Raise e.
Proof.
  unfold STCSVBuffer.get_times.
  destruct (csv_spikes_finish self fs None None time_window none) as [e He].
  destruct (STCSVBuffer.spikes self fs None None time_window none) as [[r s] f].
  simpl in *. unfold STCSVBuffer.times_of_run. rewrite He. by exists e.
Qed.

(** ** After [close] *)

Lemma csv_close_closed self fs :
  h_closed (STCSVBuffer._buffer_handle (STCSVBuffer.close self fs).1.2) = true.
Proof.
  unfold STCSVBuffer.close, h_close.
  destruct (h_closed (STCSVBuffer._buffer_handle self)) eqn:Hc.
  - destruct (path_exists _ _); [destruct (fs_remove _ _)|]; simpl; done.
  - destruct (path_exists _ _); [destruct (fs_remove _ _)|]; simpl; done.
Qed.

Lemma csv_closed_fold {A} (pop_na : string) (self : STCSVBuffer.t)
    (step : STCSVBuffer.t -> A -> result STCSVBuffer.t) (l : list A) :
  (forall b x, h_closed (STCSVBuffer._buffer_handle b) = true ->
     step b x = Raise closed_file) ->
  h_closed (STCSVBuffer._buffer_handle self) = true ->
  foldl (fun acc x => b ← acc; step b x) (Ok self) l
  = if decide (l = []) then Ok self else Raise closed_file.
Proof.
  intros Hstep Hc. destruct l as [|x l]; [done|].
  rewrite decide_False by done. simpl. rewrite Hstep by done.
  induction l as [|y l IH]; [done|]. exact IH.
Qed.

(** X16. Once [close] was called, whatever it met, the buffer takes no more
    spikes: [add_spike] raises the [ValueError] of a closed file, and so
    does [add_spikes] unless it has nothing to write, in which case it
    returns without an error. *)
Theorem csv_closed_rejects_spikes pop_na (self : STCSVBuffer.t) (fs : filesystem)
    (n : Z) (t : Q) (ids : list Z) (timestamps : list Q) (population : option string) :
  let closed := (STCSVBuffer.close self fs).1.2 in
  STCSVBuffer.add_spike pop_na closed n t population = Raise closed_file /\
  STCSVBuffer.add_spikes pop_na closed (IdScalar n) timestamps population
    = (if decide (timestamps = []) then Ok closed else Raise closed_file) /\
  STCSVBuffer.add_spikes pop_na closed (IdList ids) timestamps population
    = (if decide (zip ids timestamps = []) then Ok closed else Raise closed_file).
Proof.
  cbv zeta. pose proof (csv_close_closed self fs) as Hc.
  set (closed := (STCSVBuffer.close self fs).1.2) in *.
  assert (Hadd : forall b n t, h_closed (STCSVBuffer._buffer_handle b) = true ->
    STCSVBuffer.add_spike pop_na b n t population = Raise closed_file).
  { intros b n' t' Hb. unfold STCSVBuffer.add_spike, h_write. by rewrite Hb. }
  split; [by apply Hadd|]. unfold STCSVBuffer.add_spikes. split.
  - apply (csv_closed_fold pop_na closed
             (fun b ts => STCSVBuffer.add_spike pop_na b n ts population)); [|done].
    intros b x Hb. by apply Hadd.
  - apply (csv_closed_fold pop_na closed
             (fun b nt => STCSVBuffer.add_spike pop_na b (fst nt) (snd nt) population));
      [|done].
    intros b x Hb. by apply Hadd.
Qed.

(** ** The cache directory *)

(** X17. The cache directory is never created: when it does not exist, the
    constructor of the file buffer, and that of the distributed buffer on
    rank 0, end in an [AttributeError] and no file is opened. *)
Theorem init_missing_cache_dir pop_na cache_dir dp units (fs : filesystem)
    (MPI_rank MPI_size : nat) (kw_MPI_size : option nat) :
  path_exists fs (str_or cache_dir ".") = false ->
  STCSVBuffer.init pop_na cache_dir dp units fs = Raise AttributeError /\
  STMPIBuffer.init MPI_rank MPI_size pop_na cache_dir dp units (Some 0%nat)
    kw_MPI_size fs = Raise AttributeError /\
  STMPIBuffer.init 0 MPI_size pop_na cache_dir dp units None kw_MPI_size fs
    = Raise AttributeError.
Proof.
  intros Hno. unfold STMPIBuffer.init, STCSVBuffer.init, STCSVBuffer.init_with,
    STCSVBuffer._cache_fname, STMPIBuffer._cache_fname. simpl.
  rewrite Hno. done.
Qed.

Lemma init_missing_cache_dir_witness :
  STCSVBuffer.init "NA" (Some "cache") None None cwd = Raise AttributeError /\
  STMPIBuffer.init 3 4 "NA" (Some "cache") None None (Some 0%nat) None cwd
    = Raise AttributeError /\
  STMPIBuffer.init 0 4 "NA" (Some "cache") None None None None cwd
    = Raise AttributeError.
Proof.
  apply (init_missing_cache_dir "NA" (Some "cache") None None cwd 3 4 None).
  vm_compute. reflexivity.
Defined.


(** ** The files of the ranks *)

Lemma string_length_app (a b : string) :
  String.length (a +:+ b) = String.length a + String.length b.
Proof. induction a as [|c a IH]; simpl; [done|]. by rewrite IH. Qed.

Lemma string_app_inv_tail (a b t : string) : a +:+ t = b +:+ t -> a = b.
Proof.
  revert b. induction a as [|c a IH]; intros [|d b] H; simpl in H.
  - done.
  - apply (f_equal String.length) in H.
    rewrite ?string_length_app in H. simpl in H. rewrite ?string_length_app in H. lia.
  - apply (f_equal String.length) in H.
    rewrite ?string_length_app in H. simpl in H. rewrite ?string_length_app in H. lia.
  - injection H as -> H. f_equal. by apply IH.
Qed.

Lemma path_join_inj (dir a b : string) : path_join dir a = path_join dir b -> a = b.
Proof.
  unfold path_join. destruct (decide (dir = "")); [done|].
  destruct (ends_with_slash dir); intros H.
  - by apply (inj (String.app dir)) in H.
  - apply (inj (String.app dir)) in H. by apply (inj (String.app "/")) in H.
Qed.

Lemma node_file_inj (cache_dir : string) (r1 r2 : nat) :
  STMPIBuffer.node_file cache_dir r1 = STMPIBuffer.node_file cache_dir r2 -> r1 = r2.
Proof.
  unfold STMPIBuffer.node_file. intros H%path_join_inj.
  apply (inj (String.app ".bmtk.spikes.cache.node")) in H.
  apply string_app_inv_tail in H. by apply (inj pretty) in H.
Qed.

(** X18. The files of different ranks are different files, and a buffer
    reads its own file back only when its rank is below the [MPI_size] of
    the runtime: the files that are read are numbered by the runtime's size,
    the file that is written by the rank given at construction. *)
Theorem mpi_own_file_read (MPI_rank MPI_size : nat) pop_na cache_dir dp units
    (kw_MPI_rank kw_MPI_size : option nat) (fs : filesystem) b fs1 :
  STMPIBuffer.init MPI_rank MPI_size pop_na cache_dir dp units kw_MPI_rank
    kw_MPI_size fs = Ok (b, fs1) ->
  NoDup (STMPIBuffer._all_cached_files MPI_size b) /\
  (STCSVBuffer._buffer_filename (STMPIBuffer.base b)
     ∈ STMPIBuffer._all_cached_files MPI_size b
   <-> default MPI_rank kw_MPI_rank < MPI_size).
Proof.
  intros Hinit.
  assert (Hfn : STCSVBuffer._buffer_filename (STMPIBuffer.base b)
                = STMPIBuffer.node_file (STCSVBuffer._cache_dir (STMPIBuffer.base b))
                    (default MPI_rank kw_MPI_rank)).
  { revert Hinit. unfold STMPIBuffer.init, STCSVBuffer.init_with,
      STMPIBuffer._cache_fname, fs_open_w.
    destruct (_ && _); [done|]. rewrite bind_Ok.
    destruct (bool_decide _); [done|]. rewrite !bind_Ok. by intros [= <- _]. }
  unfold STMPIBuffer._all_cached_files. split.
  - apply NoDup_fmap_2; [|apply NoDup_seq]. intros r1 r2. apply node_file_inj.
  - rewrite Hfn, list_elem_of_fmap. split.
    + intros (r & ->%node_file_inj & Hr%elem_of_seq). lia.
    + intros Hlt. eexists. split; [done|]. apply elem_of_seq. lia.
Qed.

(** An instance: a buffer that is given rank 5 in a runtime of two ranks
    writes a file that no read looks at. *)
Lemma mpi_own_file_read_witness :
  exists b,
    NoDup (STMPIBuffer._all_cached_files 2 b) /\
    (STCSVBuffer._buffer_filename (STMPIBuffer.base b)
       ∈ STMPIBuffer._all_cached_files 2 b
     <-> 5 < 2).
Proof.
  destruct (STMPIBuffer.init 0 2 "NA" None None None (Some 5%nat) None cwd)
    as [[b fs1]|e] eqn:Hinit; [|vm_compute in Hinit; discriminate Hinit].
  exists b.
  exact (mpi_own_file_read 0 2 "NA" None None None (Some 5%nat) None cwd b fs1 Hinit).
Defined.

(** ** Counting in the files of all ranks *)

Lemma count_rows_app counts (a b : list row) :
  STMPIBuffer.count_rows counts (a ++ b)
  = STMPIBuffer.count_rows (STMPIBuffer.count_rows counts a) b.
Proof. unfold STMPIBuffer.count_rows. apply foldl_app. Qed.

Lemma count_rows_spec counts (rows : list row) :
  (forall p, default 0 (STMPIBuffer.count_rows counts rows !! Some p)
     = default 0 (counts !! Some p)
       + length (base.filter (fun r : row => pop r = p) rows)) /\
  STMPIBuffer.count_rows counts rows !! None = counts !! None /\
  dom (STMPIBuffer.count_rows counts rows)
    = dom counts ∪ list_to_set ((fun r : row => Some (pop r)) <$> rows).
Proof.
  induction rows as [|r rows IH] using rev_ind.
  - simpl. repeat split; [intros; lia|]. by rewrite union_empty_r_L.
  - destruct IH as (Hc & Hnone & Hdom). rewrite count_rows_app.
    set (c1 := STMPIBuffer.count_rows counts rows) in *.
    cbn [STMPIBuffer.count_rows foldl]. split; [|split].
    + intros p. rewrite filter_app, length_app, filter_cons, filter_nil.
      destruct (decide (pop r = p)) as [->|Hne].
      * rewrite lookup_insert_eq. simpl. rewrite Hc. lia.
      * rewrite lookup_insert_ne by congruence. simpl. rewrite Hc. lia.
    + by rewrite lookup_insert_ne.
    + rewrite dom_insert_L, Hdom, fmap_app, list_to_set_app_L. simpl.
      rewrite union_empty_r_L, (union_comm_L {[ Some (pop r) ]}).
      by rewrite union_assoc_L.
Qed.

Lemma gather_files_all fs files (contents : list (list row)) counts :
  Forall2 (fun fn rows => fs_files fs !! fn = Some rows) files contents ->
  STMPIBuffer.gather_files fs files counts
  = (None, STMPIBuffer.count_rows counts (mjoin contents)).
Proof.
  intros H. revert counts. induction H as [|fn rows files contents Hfn _ IH];
    intros counts; [done|].
  cbn [STMPIBuffer.gather_files]. unfold fs_read. rewrite Hfn, IH.
  change (mjoin (rows :: contents)) with (rows ++ mjoin contents).
  by rewrite count_rows_app.
Qed.

(** X19. When the files of all ranks are present, [n_spikes] of the
    distributed buffer is the number of lines with the population in those
    files, and 0 when no population is named: the buffer's own counts and
    the spikes it has written but not flushed play no part. *)
Theorem mpi_n_spikes_counts_lines (MPI_size : nat) (self : STMPIBuffer.t)
    (fs : filesystem) (contents : list (list row)) (p : string) :
  Forall2 (fun fn rows => fs_files fs !! fn = Some rows)
    (STMPIBuffer._all_cached_files MPI_size self) contents ->
  (STMPIBuffer.n_spikes MPI_size self fs (Some p)).1
    = Ok (length (base.filter (fun r : row => pop r = p) (mjoin contents))) /\
  (STMPIBuffer.n_spikes MPI_size self fs None).1 = Ok 0.
Proof.
  intros Hfiles. unfold STMPIBuffer.n_spikes, STMPIBuffer._gather.
  rewrite (gather_files_all _ _ _ _ Hfiles). simpl.
  destruct (count_rows_spec ∅ (mjoin contents)) as (Hc & Hnone & _).
  rewrite Hc, Hnone, !lookup_empty. done.
Qed.

(** An instance: rank 0 has one spike pending, which is not counted. *)
Lemma mpi_n_spikes_counts_lines_witness :
  (STMPIBuffer.n_spikes 2 mpi_rank0 mpi_both_files (Some "A")).1
    = Ok (length (base.filter (fun r : row => pop r = "A")
                    (mjoin [[]; [Row 0.5 "B" 1]]))) /\
  (STMPIBuffer.n_spikes 2 mpi_rank0 mpi_both_files None).1 = Ok 0.
Proof.
  apply (mpi_n_spikes_counts_lines 2 mpi_rank0 mpi_both_files [[]; [Row 0.5 "B" 1]] "A").
  repeat constructor.
Defined.

(** X20. When the files of all ranks are present, the populations of the
    distributed buffer are those that occur in the lines of the files, each
    once; the default population is listed only if a line carries it. *)
Theorem mpi_populations_from_files (MPI_size : nat) (self : STMPIBuffer.t)
    (fs : filesystem) (contents : list (list row)) (p : option string) :
  Forall2 (fun fn rows => fs_files fs !! fn = Some rows)
    (STMPIBuffer._all_cached_files MPI_size self) contents ->
  exists l,
    (STMPIBuffer.populations MPI_size self fs).1 = Ok l /\ NoDup l /\
    (p ∈ l <-> exists r, r ∈ mjoin contents /\ p = Some (pop r)).
Proof.
  intros Hfiles. unfold STMPIBuffer.populations, STMPIBuffer._gather.
  rewrite (gather_files_all _ _ _ _ Hfiles). simpl.
  eexists. split; [done|]. unfold STCSVBuffer.populations. simpl.
  split; [apply NoDup_elements|].
  destruct (count_rows_spec ∅ (mjoin contents)) as (_ & _ & Hdom).
  rewrite elem_of_elements, Hdom, dom_empty_L, union_empty_l_L,
    elem_of_list_to_set, list_elem_of_fmap.
  split; intros (r & H1 & H2); by exists r.
Qed.

Lemma mpi_populations_from_files_witness :
  exists l,
    (STMPIBuffer.populations 2 mpi_rank0 mpi_both_files).1 = Ok l /\ NoDup l /\
    (Some "NA" ∈ l <-> exists r, r ∈ mjoin [[]; [Row 0.5 "B" 1]] /\ Some "NA" = Some (pop r)).
Proof.
  apply (mpi_populations_from_files 2 mpi_rank0 mpi_both_files [[]; [Row 0.5 "B" 1]]
           (Some "NA")).
  repeat constructor.
Defined.

(** ** Retrieval without order from the distributed buffer *)





(** X23. [get_times] of the distributed buffer never returns the times
    either: the retrieval without order it reads from ends in an exception
    in every case. *)
Theorem mpi_get_times_raises (MPI_size : nat) (self : STMPIBuffer.t)
    (fs : filesystem) (node_id : Z) (population : option string)
    (time_window : option (Q * Q)) :
  exists e, (STMPIBuffer.get_times MPI_size self fs node_id population
               time_window).1.1 = Raise e.
Proof.
  unfold STMPIBuffer.get_times, STMPIBuffer.spikes.
  destruct (STMPIBuffer.flush self fs) as [[self1 fs1]|e]; [|by exists e].
  simpl. unfold STMPIBuffer._unsorted_itr, g_seq, STCSVBuffer.times_of_run.
  destruct (finish (STMPIBuffer.unsorted_files _ _ _)) as [e|] eqn:He.
  - rewrite He. by exists e.
  - simpl. by eexists.
Qed.
